(** * flynt: the file-level driver of [src/flynt/api.py]

    A shallow embedding of [fstringify_file], [fstringify_files],
    [print_report] and [fstringify], and the properties of the
    specification that concern them.

    Python values are modelled as follows.
    - [str] is [string]; [len] counts its characters, as a [Z].
    - [int] is [Z]; [bool] is [bool].
    - The file system is a finite map from paths to nodes.
    - Code that performs I/O, prints or raises lives in the monad [M]:
      a state transformer over [world] whose outcome is a value or a
      raised exception.
    - [print] appends a structured message to [stdout]: the message
      constructor stands for the format string, its arguments are the
      interpolated values. *)

From Stdlib Require Import ZArith QArith List Bool String Ascii Lia.
From stdpp Require Import gmap strings.
Import ListNotations.

Local Open Scope Z_scope.
Local Open Scope string_scope.

(** ** Exceptions *)

Module Py.

(** The exceptions that occur in the driver.  [RaisedException] stands
    for any other subclass of [Exception] (for instance the
    [SyntaxError] of a file that does not parse). *)
Inductive exn : Type :=
| FileNotFoundError (path : string)
| IsADirectoryError (path : string)
| PermissionError (path : string)
| UnicodeDecodeError
| UnboundLocalError (name : string)
| ZeroDivisionError
| KeyError (key : string)
| SystemExit (code : Z)
| KeyboardInterrupt
| RaisedException (descr : string)
| OSError (descr : string)
| UnicodeEncodeError
| OverflowError.

(** [isinstance(e, Exception)]: [SystemExit] and [KeyboardInterrupt]
    derive from [BaseException] only. *)
Definition is_Exception (e : exn) : bool :=
  match e with
  | SystemExit _ | KeyboardInterrupt => false
  | _ => true
  end.

Inductive outcome (A : Type) : Type :=
| Ok (a : A)
| Raise (e : exn).
Arguments Ok {A} a.
Arguments Raise {A} e.

Definition len (s : string) : Z := Z.of_nat (String.length s).

(** The universal-newlines translation of a text-mode read: [\r\n] and a
    lone [\r] both become [\n]. *)
Definition CR : ascii := "013"%char.
Definition LF : ascii := "010"%char.

Fixpoint universal_newlines (s : string) : string :=
  match s with
  | EmptyString => EmptyString
  | String c s' =>
      if Ascii.eqb c CR
      then match s' with
           | EmptyString => String LF EmptyString
           | String c' s'' =>
               if Ascii.eqb c' LF
               then String LF (universal_newlines s'')
               else String LF (universal_newlines s')
           end
      else String c (universal_newlines s')
  end.

(** Whether the true division [a / b] of two integers ([b] nonzero)
    overflows the range of a float: the quotient, rounded to nearest,
    reaches [2^1024]. *)
Definition true_div_overflows (a b : Z) : bool :=
  Z.leb ((2 ^ 1024 - 2 ^ 970) * Z.abs b) (Z.abs a).

(** [b in s] on strings: [b] occurs in [s] as a contiguous substring. *)
Fixpoint str_contains (b s : string) : bool :=
  String.prefix b s ||
  match s with
  | EmptyString => false
  | String _ s' => str_contains b s'
  end.

(** [s.rfind("/") + 1], as a split of [s] after its last slash. *)
Fixpoint split_last_slash (s : string) : string * string :=
  match s with
  | EmptyString => (EmptyString, EmptyString)
  | String c s' =>
      let (head, tail) := split_last_slash s' in
      if str_contains "/" s'
      then (String c head, tail)
      else if Ascii.eqb c "/"
           then (String c EmptyString, s')
           else (EmptyString, String c s')
  end.

Fixpoint all_slashes (s : string) : bool :=
  match s with
  | EmptyString => true
  | String c s' => Ascii.eqb c "/" && all_slashes s'
  end.

(** [s.rstrip("/")] *)
Fixpoint rstrip_slash (s : string) : string :=
  match s with
  | EmptyString => EmptyString
  | String c s' =>
      if all_slashes s then EmptyString else String c (rstrip_slash s')
  end.

Fixpoint ends_with_slash (s : string) : bool :=
  match s with
  | EmptyString => false
  | String c EmptyString => Ascii.eqb c "/"
  | String _ s' => ends_with_slash s'
  end.

End Py.
Export Py.

(** ** [os.path] (posixpath) *)

Module os_path.

(** [posixpath.join(a, p)] for two components: an absolute [p] replaces
    [a]; otherwise the parts are joined with exactly one separator. *)
Definition join (a p : string) : string :=
  if String.prefix "/" p then p
  else if String.eqb a "" || ends_with_slash a then a ++ p
       else a ++ "/" ++ p.

(** [posixpath.split]: the head loses its trailing slashes unless it
    consists of slashes only. *)
Definition split (p : string) : string * string :=
  let (head, tail) := split_last_slash p in
  if negb (String.eqb head "") && negb (all_slashes head)
  then (rstrip_slash head, tail)
  else (head, tail).

Definition dirname (p : string) : string := fst (split p).
Definition basename (p : string) : string := snd (split_last_slash p).

End os_path.

(** ** The world: file system, console, I/O trace *)

(** What reading a file yields: text, or bytes that are not UTF-8. *)
Inductive fdata : Type :=
| Text (s : string)
| Undecodable.

Inductive node : Type :=
| Dir
| File (data : fdata) (readonly : bool).

(** The arguments [fstringify_file] passes to [pyupgrade.fix_file]. *)
Record Namespace : Type := {
  py36_plus : bool;
  py3_plus : bool;
  keep_percent_format : bool;
  exit_zero_even_if_changed : bool
}.

(** File operations of the driver itself, and the hand-over of a file to
    the upgrader, in the order they happen.  [EvWriteFailed] is a write
    that raised after the file was opened: [written] is what reached the
    file. *)
Inductive io_event : Type :=
| EvOpenRead (path : string)
| EvWrite (path : string) (text : string)
| EvPyup (path : string) (args : Namespace)
| EvWriteFailed (path : string) (written : string).

(** How the environment answers the writing of a text to a path: the
    write goes through; or [open(path, "w")] raises and the file is as it
    was; or the file is opened, and so emptied, and the write or the
    closing flush raises ([OSError] for a full disk, [UnicodeEncodeError]
    for text that has no UTF-8 encoding) when [written] characters have
    reached the file. *)
Inductive write_outcome : Type :=
| WriteOk
| OpenFails (e : exn)
| WriteFails (e : exn) (written : nat).

Inductive msg : Type :=
| MsgSkipping (filename : string) (e : exn)
| MsgTraceback (e : exn)
| MsgFstringifying (file_path status : string)
| MsgNotFound (file_or_path : string)
| MsgRunFinished
| MsgExecutionTime (total_time : Z)
| MsgFilesModified (changed_files : Z)
| MsgExpressionsTransformed (total_expr : Z)
| MsgCharCountReduction (cc_reduction : Z) (cc_percent_reduction : Q)
| MsgRule
| MsgText (s : string).

Record world : Type := World {
  fs : gmap string node;
  stdout : list msg;
  stderr : list msg;
  trace : list io_event;
  ticks : nat;
  spy_before : gmap string node;
  spy_after : gmap string node;
  disk_fault : string -> string -> write_outcome
}.

Definition set_fs (f : gmap string node) (w : world) : world :=
  World f (stdout w) (stderr w) (trace w) (ticks w) (spy_before w) (spy_after w)
        (disk_fault w).
Definition add_stdout (m : msg) (w : world) : world :=
  World (fs w) (stdout w ++ [m]) (stderr w) (trace w) (ticks w)
        (spy_before w) (spy_after w) (disk_fault w).
Definition add_stderr (m : msg) (w : world) : world :=
  World (fs w) (stdout w) (stderr w ++ [m]) (trace w) (ticks w)
        (spy_before w) (spy_after w) (disk_fault w).
Definition add_trace (e : io_event) (w : world) : world :=
  World (fs w) (stdout w) (stderr w) (trace w ++ [e]) (ticks w)
        (spy_before w) (spy_after w) (disk_fault w).
Definition tick (w : world) : world :=
  World (fs w) (stdout w) (stderr w) (trace w) (S (ticks w))
        (spy_before w) (spy_after w) (disk_fault w).
Definition set_spy (before after : gmap string node) (w : world) : world :=
  World (fs w) (stdout w) (stderr w) (trace w) (ticks w) before after
        (disk_fault w).

(** ** The monad of effectful code *)

Definition M (A : Type) : Type := world -> outcome A * world.

Definition ret {A} (a : A) : M A := fun w => (Ok a, w).
Definition raise {A} (e : exn) : M A := fun w => (Raise e, w).
Definition bind {A B} (c : M A) (k : A -> M B) : M B :=
  fun w =>
    match c w with
    | (Ok a, w') => k a w'
    | (Raise e, w') => (Raise e, w')
    end.

(** Runs [c] and hands back how it ended, raising nothing itself. *)
Definition attempt {A} (c : M A) : M (outcome A) :=
  fun w => let (r, w') := c w in (Ok r, w').

Definition lift {A} (r : outcome A) : M A := fun w => (r, w).

Notation "'let*' x ':=' c 'in' k" := (bind c (fun x => k))
  (at level 10, x pattern, c at level 100, k at level 200).
Notation "c ';;' k" := (bind c (fun _ => k))
  (at level 100, k at level 200, right associativity).

Definition print (m : msg) : M unit := fun w => (Ok tt, add_stdout m w).

(** [traceback.print_exc()] writes the traceback to standard error. *)
Definition traceback_print_exc (e : exn) : M unit :=
  fun w => (Ok tt, add_stderr (MsgTraceback e) w).

(** Reading a local variable: one that was never assigned raises
    [UnboundLocalError]. *)
Definition load_local {A} (name : string) (v : option A) : M A :=
  match v with
  | Some a => ret a
  | None => raise (UnboundLocalError name)
  end.

(** [with open(filename, encoding="utf-8") as file: file.read()].  The
    file system holds the text as it is on disk; a text-mode read hands
    it over with its line ends translated. *)
Definition open_read (filename : string) : M string :=
  fun w =>
    let w' := add_trace (EvOpenRead filename) w in
    match fs w !! filename with
    | None => (Raise (FileNotFoundError filename), w')
    | Some Dir => (Raise (IsADirectoryError filename), w')
    | Some (File Undecodable _) => (Raise UnicodeDecodeError, w')
    | Some (File (Text s) _) => (Ok (universal_newlines s), w')
    end.

(** [with open(filename, "w", encoding="utf-8") as file: file.write(text)]
    on a POSIX system, where writing leaves the line ends as they are.
    Opening fails for a directory and for a read-only file, or as the
    environment has it; once the file is open its old text is gone, and a
    write that then fails leaves the part that was written. *)
Definition open_write (filename text : string) : M unit :=
  fun w =>
    match fs w !! filename with
    | Some Dir => (Raise (IsADirectoryError filename), w)
    | Some (File _ true) => (Raise (PermissionError filename), w)
    | Some (File _ false) | None =>
        match disk_fault w filename text with
        | OpenFails e => (Raise e, w)
        | WriteFails e written =>
            let part := String.substring 0 written text in
            (Raise e,
             add_trace (EvWriteFailed filename part)
               (set_fs (<[filename := File (Text part) false]> (fs w)) w))
        | WriteOk =>
            (Ok tt,
             add_trace (EvWrite filename text)
               (set_fs (<[filename := File (Text text) false]> (fs w)) w))
        end
    end.

(** ** The driver *)

Definition BLACKLIST : list string := [".tox"; "venv"; "site-packages"; ".eggs"].

(** [(changes_made, n_changes, length of original code, length of new code)] *)
Definition file_result : Type := bool * Z * Z * Z.

Definition changes_made (r : file_result) : bool := r.1.1.1.
Definition n_changes (r : file_result) : Z := r.1.1.2.
Definition len_original (r : file_result) : Z := r.1.2.
Definition len_new (r : file_result) : Z := r.2.

Section Driver.

(** The conversion engine [flynt.process.fstringify_code_by_line]: a pure
    function of the text and the two settings that returns the new text
    and the number of changes, or raises. *)
Variable fstringify_code_by_line : string -> bool -> Z -> outcome (string * Z).

(** [pyupgrade.fix_file(filename, args)]: reads and possibly rewrites
    files, and reports whether it changed the file. *)
Variable pyupgrade_fix_file :
  string -> Namespace -> gmap string node -> outcome bool * gmap string node.

(** [astor.code_to_ast.find_py_files]: the (directory, filename) pairs
    found below a directory. *)
Variable find_py_files : gmap string node -> string -> list (string * string).

(** [os.path.abspath], which depends on the working directory. *)
Variable abspath : string -> string.

(** [time.time()] in milliseconds: the value of the n-th reading. *)
Variable clock : nat -> Z.

(** The texts of [flynt.cli_messages]. *)
Variables MESSAGE_PYUP_SUCCESS MESSAGE_SUGGEST_PYUP FAREWELL_MESSAGE : string.

Definition time_time : M Z := fun w => (Ok (clock (ticks w)), tick w).

(** Modelled from the spec: [flynt.file_spy.spy_on_file_io], the
    bookkeeping that tracks character counts before and after a pass.
    The files are recorded as they are when the block is entered and as
    they are when it is left. *)
Definition spy_on_file_io {A} (body : M A) : M A :=
  fun w =>
    let (r, w') := body w in
    (r, set_spy (fs w) (fs w') w').

(** Modelled from the spec: [flynt.file_spy.charcount_stats], the
    character counts of a file before and after the pass that ran under
    [spy_on_file_io]. *)
Definition charcount_stats (filename : string) : M (Z * Z) :=
  fun w =>
    match spy_before w !! filename, spy_after w !! filename with
    | Some (File (Text a) _), Some (File (Text b) _) => (Ok (len a, len b), w)
    | _, _ => (Raise (KeyError filename), w)
    end.

Definition fix_file (filename : string) (args : Namespace) : M bool :=
  fun w =>
    let w1 := add_trace (EvPyup filename args) w in
    let (r, f) := pyupgrade_fix_file filename args (fs w1) in
    (r, set_fs f w1).

(** The [except Exception as exception] block of [fstringify_file].
    [contents] is the local variable of that name: [None] while it has
    not been assigned. *)
Definition except_block (filename : string) (contents : option string)
    (exception : exn) : M file_result :=
  print (MsgSkipping filename exception);;
  traceback_print_exc exception;;
  let* c1 := load_local "contents" contents in
  let* c2 := load_local "contents" contents in
  ret (false, 0, len c1, len c2).

(** The [else] block of the [try] statement. *)
Definition else_block (filename contents new_code : string) (changes : Z)
    : M file_result :=
  if String.eqb new_code contents
  then ret (false, 0, len contents, len contents)
  else
    open_write filename new_code;;
    ret (true, changes, len contents, len new_code).

(** The [try] statement of [fstringify_file].  Its body has two
    statements; an exception in the first leaves [contents] unassigned. *)
Definition try_statement (filename : string) (multiline : bool) (len_limit : Z)
    : M file_result :=
  let* read := attempt (open_read filename) in
  match read with
  | Raise e =>
      if is_Exception e then except_block filename None e else raise e
  | Ok contents =>
      let* converted :=
        attempt (lift (fstringify_code_by_line contents multiline len_limit)) in
      match converted with
      | Raise e =>
          if is_Exception e
          then except_block filename (Some contents) e
          else raise e
      | Ok (new_code, changes) =>
          else_block filename contents new_code changes
      end
  end.

Definition pyup_args : Namespace :=
  {| py36_plus := true;
     py3_plus := true;
     keep_percent_format := false;
     exit_zero_even_if_changed := false |}.

Definition fstringify_file (filename : string) (multiline : bool)
    (len_limit : Z) (pyup : bool) : M file_result :=
  let* result := try_statement filename multiline len_limit in
  if negb pyup then ret result
  else
    let args := pyup_args in
    let* changed := spy_on_file_io (fix_file filename args) in
    if changed
    then
      let* stats := charcount_stats filename in
      let len_after := snd stats in
      ret (true, n_changes result, len_original result, len_after)
    else ret result.

(** [any(b in file[0] for b in BLACKLIST)] *)
Definition blacklisted (file : string * string) : bool :=
  existsb (fun b => str_contains b (fst file)) BLACKLIST.

(** The running totals of [fstringify_files]. *)
Record totals : Type := Totals {
  changed_files : Z;
  total_charcount_original : Z;
  total_charcount_new : Z;
  total_expressions : Z
}.

Definition totals0 : totals := Totals 0 0 0 0.

(** The update of the totals in one iteration of the loop. *)
Definition add_result (t : totals) (r : file_result) : totals :=
  let '(changed, count_expressions, charcount_original, charcount_new) := r in
  let t1 :=
    if changed
    then Totals (changed_files t + 1) (total_charcount_original t)
                (total_charcount_new t) (total_expressions t + count_expressions)
    else t in
  Totals (changed_files t1)
         (total_charcount_original t1 + charcount_original)
         (total_charcount_new t1 + charcount_new)
         (total_expressions t1).

(** The body of the [for] loop for one file that is not skipped. *)
Definition process_file (file : string * string) (verbose quiet multiline : bool)
    (len_limit : Z) (pyup : bool) : M file_result :=
  let file_path := os_path.join (fst file) (snd file) in
  let* r := fstringify_file file_path multiline len_limit pyup in
  let status := if Z.eqb (n_changes r) 0 then "no" else "yes" in
  (if verbose && negb quiet
   then print (MsgFstringifying file_path status)
   else ret tt);;
  ret r.

(** The [for file in files] loop. *)
Fixpoint files_loop (files : list (string * string))
    (verbose quiet multiline : bool) (len_limit : Z) (pyup : bool)
    (t : totals) : M totals :=
  match files with
  | [] => ret t
  | file :: rest =>
      if blacklisted file
      then files_loop rest verbose quiet multiline len_limit pyup t
      else
        let* r := process_file file verbose quiet multiline len_limit pyup in
        files_loop rest verbose quiet multiline len_limit pyup (add_result t r)
  end.

(** [print_report].  The true division of the two integers raises for a
    zero divisor and for a quotient beyond the floats; the percentage
    kept in the message is the exact quotient, which Python rounds to a
    float and prints with two decimals. *)
Definition print_report (changed_files : Z) (pyup : bool)
    (total_cc_new total_cc_original total_expr total_time : Z) : M unit :=
  print MsgRunFinished;;
  print (MsgExecutionTime total_time);;
  print (MsgFilesModified changed_files);;
  (if negb (Z.eqb changed_files 0)
   then
     print (MsgExpressionsTransformed total_expr);;
     let cc_reduction := total_cc_original - total_cc_new in
     let* cc_percent_reduction :=
       if Z.eqb total_cc_original 0
       then raise ZeroDivisionError
       else if true_div_overflows cc_reduction total_cc_original
            then raise OverflowError
            else ret (inject_Z cc_reduction / inject_Z total_cc_original)%Q in
     print (MsgCharCountReduction cc_reduction cc_percent_reduction)
   else ret tt);;
  print MsgRule;;
  (if negb pyup
   then print (MsgText MESSAGE_SUGGEST_PYUP)
   else print (MsgText MESSAGE_PYUP_SUCCESS));;
  print (MsgText FAREWELL_MESSAGE);;
  print MsgRule.

Definition fstringify_files (files : list (string * string))
    (verbose quiet multiline : bool) (len_limit : Z) (pyup : bool) : M Z :=
  let* start_time := time_time in
  let* t := files_loop files verbose quiet multiline len_limit pyup totals0 in
  let* end_time := time_time in
  let total_time := end_time - start_time in
  (if negb quiet
   then print_report (changed_files t) pyup (total_charcount_new t)
          (total_charcount_original t) (total_expressions t) total_time
   else ret tt);;
  ret (changed_files t).

(** [os.path.exists] and [os.path.isdir] *)
Definition exists_ (p : string) : M bool :=
  fun w => (Ok (match fs w !! p with Some _ => true | None => false end), w).

Definition isdir (p : string) : M bool :=
  fun w => (Ok (match fs w !! p with Some Dir => true | _ => false end), w).

(** The loop of [fstringify] that turns the arguments into
    (directory, filename) pairs. *)
Fixpoint collect_files (files_or_paths : list string)
    (files : list (string * string)) : M (list (string * string)) :=
  match files_or_paths with
  | [] => ret files
  | file_or_path :: rest =>
      let abs_path := abspath file_or_path in
      let* found := exists_ abs_path in
      (if negb found
       then print (MsgNotFound file_or_path);; raise (SystemExit 1)
       else ret tt);;
      let* d := isdir abs_path in
      let* files' :=
        if d
        then fun w => (Ok (files ++ find_py_files (fs w) abs_path)%list, w)
        else ret (files ++ [(os_path.dirname abs_path,
                             os_path.basename abs_path)])%list in
      collect_files rest files'
  end.

Definition fstringify (files_or_paths : list string)
    (verbose quiet multiline : bool) (len_limit : Z) (pyup : bool)
    (fail_on_changes : bool) : M Z :=
  let* files := collect_files files_or_paths [] in
  let* status := fstringify_files files verbose quiet multiline len_limit pyup in
  if fail_on_changes then ret status else ret 0.

End Driver.

(** ** Concrete collaborators and worlds *)

Module Example.

(** A conversion engine that finds nothing to convert. *)
Definition conv_nothing (s : string) (_ : bool) (_ : Z) : outcome (string * Z) :=
  Ok (s, 0).

(** A conversion engine that fails to parse every text. *)
Definition conv_syntax_error (_ : string) (_ : bool) (_ : Z)
    : outcome (string * Z) :=
  Raise (RaisedException "SyntaxError").

(** A conversion engine that knows one percent-format expression. *)
Definition conv_percent (s : string) (_ : bool) (_ : Z) : outcome (string * Z) :=
  if String.eqb s "a = '%s' % b" then Ok ("a = f'{b}'", 1) else Ok (s, 0).

(** A conversion that the user interrupts. *)
Definition conv_interrupted (_ : string) (_ : bool) (_ : Z)
    : outcome (string * Z) :=
  Raise KeyboardInterrupt.

(** An upgrader that leaves every file alone. *)
Definition up_nothing (_ : string) (_ : Namespace) (m : gmap string node)
    : outcome bool * gmap string node :=
  (Ok false, m).

(** An upgrader that drops the [u] prefix of the string literal in
    [print u'hi'] and leaves every other text alone. *)
Definition up_unicode_prefix (filename : string) (_ : Namespace)
    (m : gmap string node) : outcome bool * gmap string node :=
  match m !! filename with
  | Some (File (Text s) ro) =>
      if String.eqb s "print u'hi'"
      then (Ok true, <[filename := File (Text "print 'hi'") ro]> m)
      else (Ok false, m)
  | _ => (Ok false, m)
  end.

Definition no_py_files (_ : gmap string node) (_ : string)
    : list (string * string) := [].

Definition clock0 (n : nat) : Z := 1000 * Z.of_nat n.

(** The paths of the examples are absolute already. *)
Definition abspath_id (p : string) : string := p.

(** One file that is not UTF-8 next to one that converts. *)
Definition bad_and_good : gmap string node :=
  <["/p/bad.py" := File Undecodable false]>
    {[ "/p/good.py" := File (Text "a = '%s' % b") false ]}.

(** Stand-ins for the three texts of [flynt.cli_messages]. *)
Definition pyup_success : string := "pyupgrade has run".
Definition suggest_pyup : string := "consider --upgrade".
Definition farewell : string := "thank you".

(** An environment in which every write goes through. *)
Definition no_fault (_ _ : string) : write_outcome := WriteOk.

(** An environment whose disk is full: the file is opened and the write
    fails before any character reaches it. *)
Definition disk_full (_ _ : string) : write_outcome :=
  WriteFails (OSError "No space left on device") 0.

Definition world_of (files : gmap string node) : world :=
  World files [] [] [] 0 ∅ ∅ no_fault.

Definition full_disk_world_of (files : gmap string node) : world :=
  World files [] [] [] 0 ∅ ∅ disk_full.

Definition one_file (path text : string) : gmap string node :=
  {[ path := File (Text text) false ]}.

End Example.

(** ** Observations on a run *)

(** The world after the [except] block has logged the exception. *)
Definition logged_skip (filename : string) (e : exn) (w : world) : world :=
  add_stderr (MsgTraceback e)
    (add_stdout (MsgSkipping filename e)
       (add_trace (EvOpenRead filename) w)).

(** Reading fails for every path that is not a file of decodable text. *)
Definition read_error (filename : string) (n : option node) : option exn :=
  match n with
  | None => Some (FileNotFoundError filename)
  | Some Dir => Some (IsADirectoryError filename)
  | Some (File Undecodable _) => Some UnicodeDecodeError
  | Some (File (Text _) _) => None
  end.

(** The paths and texts the driver itself wrote, in order. *)
Fixpoint writes (evs : list io_event) : list (string * string) :=
  match evs with
  | [] => []
  | EvWrite p s :: evs' => (p, s) :: writes evs'
  | _ :: evs' => writes evs'
  end.

(** The paths the driver opened for reading, in order. *)
Fixpoint reads (evs : list io_event) : list string :=
  match evs with
  | [] => []
  | EvOpenRead p :: evs' => p :: reads evs'
  | _ :: evs' => reads evs'
  end.

(** The paths [fstringify_files] hands to [fstringify_file]. *)
Definition processed (files : list (string * string)) : list string :=
  map (fun file => os_path.join (fst file) (snd file))
      (List.filter (fun file => negb (blacklisted file)) files).

Definition is_pyup_event (e : io_event) : bool :=
  match e with
  | EvPyup _ _ => true
  | _ => false
  end.

(** The message of the [except] block. *)
Definition is_skip_message (m : msg) : bool :=
  match m with
  | MsgSkipping _ _ => true
  | _ => false
  end.

(** The per-file results of the loop of [fstringify_files], in order:
    the same calls in the same worlds as [files_loop], with the results
    kept instead of added up. *)
Fixpoint file_results
    (conv : string -> bool -> Z -> outcome (string * Z))
    (up : string -> Namespace -> gmap string node
          -> outcome bool * gmap string node)
    (files : list (string * string)) (verbose quiet multiline : bool)
    (len_limit : Z) (pyup : bool) : M (list file_result) :=
  match files with
  | [] => ret []
  | file :: rest =>
      if blacklisted file
      then file_results conv up rest verbose quiet multiline len_limit pyup
      else
        let* r := process_file conv up file verbose quiet multiline
                    len_limit pyup in
        let* rs := file_results conv up rest verbose quiet multiline
                     len_limit pyup in
        ret (r :: rs)
  end.

(** The aggregate of the specification: sums over the per-file results. *)
Definition sum_Z (l : list Z) : Z := fold_right Z.add 0 l.

Definition count_changed (rs : list file_result) : Z :=
  Z.of_nat (length (List.filter changes_made rs)).
Definition sum_expressions (rs : list file_result) : Z :=
  sum_Z (map n_changes (List.filter changes_made rs)).
Definition sum_original (rs : list file_result) : Z :=
  sum_Z (map len_original rs).
Definition sum_new (rs : list file_result) : Z :=
  sum_Z (map len_new rs).

Definition aggregate (rs : list file_result) : totals :=
  Totals (count_changed rs) (sum_original rs) (sum_new rs) (sum_expressions rs).

Definition add_totals (a b : totals) : totals :=
  Totals (changed_files a + changed_files b)
         (total_charcount_original a + total_charcount_original b)
         (total_charcount_new a + total_charcount_new b)
         (total_expressions a + total_expressions b).

(** The lines of a report that [print_report] completes. *)
Definition report_lines (m_success m_suggest m_farewell : string)
    (changed_files : Z) (pyup : bool)
    (total_cc_new total_cc_original total_expr total_time : Z) : list msg :=
  ([MsgRunFinished; MsgExecutionTime total_time; MsgFilesModified changed_files]
   ++ (if Z.eqb changed_files 0 then []
       else [MsgExpressionsTransformed total_expr;
             MsgCharCountReduction (total_cc_original - total_cc_new)
               (inject_Z (total_cc_original - total_cc_new)
                / inject_Z total_cc_original)%Q])
   ++ [MsgRule;
       MsgText (if pyup then m_success else m_suggest);
       MsgText m_farewell;
       MsgRule])%list.

(** ** Symbolic execution of the monad *)

Ltac unfold_driver :=
  unfold fstringify_file, try_statement, except_block, else_block,
    spy_on_file_io, fix_file, charcount_stats, open_read, open_write,
    attempt, lift, bind, ret, raise, print, traceback_print_exc,
    load_local in *.

Ltac break_match :=
  match goal with
  | H : context [match ?x with _ => _ end] |- _ => destruct x eqn:?
  | |- context [match ?x with _ => _ end] => destruct x eqn:?
  end.

Ltac invert_pairs :=
  repeat match goal with
  | H : (_, _) = (_, _) |- _ => inversion H; clear H; subst
  | H : Ok _ = Ok _ |- _ => inversion H; clear H; subst
  | H : Raise _ = Raise _ |- _ => inversion H; clear H; subst
  | H : Ok _ = Raise _ |- _ => discriminate H
  | H : Raise _ = Ok _ |- _ => discriminate H
  end.

Ltac run := unfold_driver; repeat (simpl in *; invert_pairs; try break_match).

(** ** Properties of [fstringify_file] *)

(** C9.  Whenever [fstringify_file] returns with the changed flag
    [False], the number of expressions it returns is 0 and the original
    and new character counts it returns are equal. *)
Theorem fstringify_file_unchanged_invariant
    conv up filename multiline len_limit pyup w n lo ln w' :
  fstringify_file conv up filename multiline len_limit pyup w
    = (Ok (false, n, lo, ln), w') ->
  n = 0 /\ lo = ln.
Proof.
  intros H. run; auto; try discriminate.
Qed.

(** A text without anything to convert, with an upgrader that leaves it alone. *)
Lemma fstringify_file_unchanged_witness :
  fst (fstringify_file Example.conv_nothing Example.up_nothing
         "/p/a.py" false 88 true
         (Example.world_of (Example.one_file "/p/a.py" "a = '%s' % b")))
    = Ok (false, 0, 12, 12)
  /\ (0 = 0 /\ 12 = 12)%Z.
Proof.
  split; [vm_compute; reflexivity |].
  apply (fstringify_file_unchanged_invariant
           Example.conv_nothing Example.up_nothing "/p/a.py" false 88 true
           (Example.world_of (Example.one_file "/p/a.py" "a = '%s' % b"))
           0 12 12
           (snd (fstringify_file Example.conv_nothing Example.up_nothing
                   "/p/a.py" false 88 true
                   (Example.world_of (Example.one_file "/p/a.py" "a = '%s' % b"))))).
  vm_compute. reflexivity.
Defined.

(** *** When the conversion raises *)

(** A read succeeds exactly on a file of decodable text, and hands over
    that text with its line ends translated. *)
Lemma open_read_ok filename w contents :
  fst (open_read filename w) = Ok contents ->
  exists disk ro,
    fs w !! filename = Some (File (Text disk) ro)
    /\ contents = universal_newlines disk.
Proof.
  unfold open_read.
  destruct (fs w !! filename) as [[|[disk|] ro]|]; simpl; intros H;
    inversion H. exists disk, ro. auto.
Qed.

Lemma try_statement_conversion_raises conv filename multiline len_limit w
    contents e :
  fst (open_read filename w) = Ok contents ->
  conv contents multiline len_limit = Raise e ->
  is_Exception e = true ->
  try_statement conv filename multiline len_limit w
    = (Ok (false, 0, len contents, len contents), logged_skip filename e w).
Proof.
  intros Hread Hconv Hexc.
  destruct (open_read_ok _ _ _ Hread) as (disk & ro & Hfile & ->).
  unfold logged_skip.
  unfold_driver. simpl. rewrite Hfile, Hconv, Hexc. reflexivity.
Qed.

(** A failing read leaves [contents] unassigned, and the [except] block
    that then evaluates [len(contents)] raises in turn. *)
Lemma try_statement_read_raises conv filename multiline len_limit w e :
  read_error filename (fs w !! filename) = Some e ->
  try_statement conv filename multiline len_limit w
    = (Raise (UnboundLocalError "contents"), logged_skip filename e w).
Proof.
  intros Hread. unfold logged_skip. unfold_driver. simpl.
  destruct (fs w !! filename) as [[|[s|] ro]|] eqn:Hfile; simpl in Hread;
    inversion Hread; subst; reflexivity.
Qed.

Lemma fstringify_file_read_raises conv up filename multiline len_limit pyup w e :
  read_error filename (fs w !! filename) = Some e ->
  fstringify_file conv up filename multiline len_limit pyup w
    = (Raise (UnboundLocalError "contents"), logged_skip filename e w).
Proof.
  intros Hread. unfold fstringify_file, bind.
  rewrite (try_statement_read_raises _ _ _ _ _ _ Hread). reflexivity.
Qed.

(** C1, as stated, fails: with [pyup] enabled, a file whose conversion
    raises is still handed to the upgrader, and when that rewrites the
    file the result reports a change. *)
Lemma fstringify_file_exception_not_always_unchanged :
  ~ (forall conv up filename multiline len_limit pyup w,
        (exists e, read_error filename (fs w !! filename) = Some e) \/
        (exists contents e,
            fst (open_read filename w) = Ok contents /\
            conv contents multiline len_limit = Raise e /\
            is_Exception e = true) ->
        exists n,
          fst (fstringify_file conv up filename multiline len_limit pyup w)
            = Ok (false, 0, n, n)).
Proof.
  intros claim.
  destruct (claim Example.conv_syntax_error Example.up_unicode_prefix
              "/p/a.py" false 88 true
              (Example.world_of (Example.one_file "/p/a.py" "print u'hi'")))
    as [n Hn].
  - right. exists "print u'hi'", (RaisedException "SyntaxError").
    repeat split; reflexivity.
  - vm_compute in Hn. discriminate Hn.
Qed.

(** C1, amended.  If the file is read and converting its text raises an
    [Exception], the core catches and logs it and writes nothing; with
    [pyup] disabled, or when the upgrader reports the file unmodified,
    [fstringify_file] returns changed=False, 0 expressions and the
    original character count as both lengths, and the loop of
    [fstringify_files] goes on with the remaining files. *)
Theorem fstringify_file_conversion_raises
    conv up filename multiline len_limit w contents e :
  fst (open_read filename w) = Ok contents ->
  conv contents multiline len_limit = Raise e ->
  is_Exception e = true ->
  let unchanged := (false, 0, len contents, len contents) in
  fstringify_file conv up filename multiline len_limit false w
    = (Ok unchanged, logged_skip filename e w)
  /\ fs (logged_skip filename e w) = fs w
  /\ stdout (logged_skip filename e w) = (stdout w ++ [MsgSkipping filename e])%list
  /\ (forall f,
        up filename pyup_args (fs w) = (Ok false, f) ->
        fst (fstringify_file conv up filename multiline len_limit true w)
          = Ok unchanged)
  /\ (forall file rest verbose quiet t,
        blacklisted file = false ->
        os_path.join (fst file) (snd file) = filename ->
        files_loop conv up (file :: rest) verbose quiet multiline len_limit
          false t w
        = files_loop conv up rest verbose quiet multiline len_limit false
            (add_result t unchanged)
            (if verbose && negb quiet
             then add_stdout (MsgFstringifying filename "no")
                    (logged_skip filename e w)
             else logged_skip filename e w)).
Proof.
  intros Hfile Hconv Hexc unchanged.
  pose proof (try_statement_conversion_raises
                conv filename multiline len_limit w contents e
                Hfile Hconv Hexc) as Htry.
  assert (Hoff : fstringify_file conv up filename multiline len_limit false w
                 = (Ok unchanged, logged_skip filename e w)).
  { unfold fstringify_file, bind. rewrite Htry. reflexivity. }
  split; [exact Hoff |].
  split; [reflexivity |].
  split; [reflexivity |].
  split.
  - intros f Hup. unfold fstringify_file, bind. rewrite Htry. simpl.
    unfold spy_on_file_io, fix_file. simpl. rewrite Hup. reflexivity.
  - intros file rest verbose quiet t Hbl Hjoin. simpl. rewrite Hbl.
    unfold process_file, bind at 1. rewrite Hjoin.
    unfold bind at 1. rewrite Hoff. simpl.
    destruct (verbose && negb quiet); reflexivity.
Qed.

(** A Python 2 text that the conversion fails to parse, with [pyup] disabled. *)
Lemma fstringify_file_conversion_raises_witness :
  fst (fstringify_file Example.conv_syntax_error Example.up_nothing
         "/p/a.py" false 88 false
         (Example.world_of (Example.one_file "/p/a.py" "print u'hi'")))
    = Ok (false, 0, 11, 11).
Proof.
  pose proof (fstringify_file_conversion_raises
                Example.conv_syntax_error Example.up_nothing
                "/p/a.py" false 88
                (Example.world_of (Example.one_file "/p/a.py" "print u'hi'"))
                "print u'hi'" (RaisedException "SyntaxError")
                eq_refl eq_refl eq_refl) as [H _].
  rewrite H. reflexivity.
Defined.

(** *** When the conversion changes nothing *)

Lemma writes_app evs1 evs2 : writes (evs1 ++ evs2) = (writes evs1 ++ writes evs2)%list.
Proof.
  induction evs1 as [|[p|p s|p a|p s] evs1 IH]; simpl; [reflexivity | | | |];
    rewrite IH; reflexivity.
Qed.




(** ** Which files [fstringify_files] processes *)

Lemma reads_app evs1 evs2 : reads (evs1 ++ evs2) = (reads evs1 ++ reads evs2)%list.
Proof.
  induction evs1 as [|[p|p s|p a|p s] evs1 IH]; simpl; [reflexivity | | | |];
    rewrite IH; reflexivity.
Qed.

(** Every call of [fstringify_file] opens its file exactly once, however
    the call ends. *)
Lemma fstringify_file_reads conv up filename multiline len_limit pyup w r w' :
  fstringify_file conv up filename multiline len_limit pyup w = (r, w') ->
  reads (trace w') = (reads (trace w) ++ [filename])%list.
Proof.
  intros Hrun. run;
    rewrite ?reads_app; simpl; rewrite ?reads_app; simpl;
    rewrite ?app_nil_r; reflexivity.
Qed.

Lemma process_file_reads conv up file verbose quiet multiline len_limit pyup
    w r w' :
  process_file conv up file verbose quiet multiline len_limit pyup w = (r, w') ->
  reads (trace w')
    = (reads (trace w) ++ [os_path.join (fst file) (snd file)])%list.
Proof.
  unfold process_file, bind at 1. intros Hrun.
  destruct (fstringify_file conv up (os_path.join (fst file) (snd file))
              multiline len_limit pyup w) as [[res|e] w1] eqn:Hfile;
    apply fstringify_file_reads in Hfile.
  - unfold bind, print, ret in Hrun.
    destruct (verbose && negb quiet); simpl in Hrun; invert_pairs; exact Hfile.
  - invert_pairs. exact Hfile.
Qed.

Lemma files_loop_reads conv up files verbose quiet multiline len_limit pyup :
  forall t w t' w',
    files_loop conv up files verbose quiet multiline len_limit pyup t w
      = (Ok t', w') ->
    reads (trace w') = (reads (trace w) ++ processed files)%list.
Proof.
  unfold processed.
  induction files as [|file rest IH]; intros t w t' w' Hrun; simpl in *.
  - unfold ret in Hrun. invert_pairs. rewrite app_nil_r. reflexivity.
  - destruct (blacklisted file) eqn:Hbl; simpl.
    + eapply IH; eassumption.
    + unfold bind at 1 in Hrun.
      destruct (process_file conv up file verbose quiet multiline len_limit
                  pyup w) as [[res|e] w1] eqn:Hfile; [| invert_pairs].
      apply process_file_reads in Hfile. apply IH in Hrun.
      rewrite Hrun, Hfile, <- app_assoc. reflexivity.
Qed.

Lemma print_report_trace m1 m2 m3 changed pyup cc_new cc_orig expr time w r w' :
  print_report m1 m2 m3 changed pyup cc_new cc_orig expr time w = (r, w') ->
  trace w' = trace w /\ fs w' = fs w.
Proof.
  unfold print_report, bind, print, ret, raise. intros Hrun.
  repeat (simpl in *; invert_pairs; try break_match); auto.
Qed.

Lemma fstringify_files_reads conv up clock m1 m2 m3 files verbose quiet
    multiline len_limit pyup w n w' :
  fstringify_files conv up clock m1 m2 m3 files verbose quiet multiline
    len_limit pyup w = (Ok n, w') ->
  reads (trace w') = (reads (trace w) ++ processed files)%list.
Proof.
  unfold fstringify_files, time_time. unfold bind at 1. intros Hrun.
  unfold bind at 1 in Hrun.
  destruct (files_loop conv up files verbose quiet multiline len_limit pyup
              totals0 (tick w)) as [[t|e] w1] eqn:Hloop; [| invert_pairs].
  apply files_loop_reads in Hloop. simpl in Hloop.
  unfold bind at 1 in Hrun. unfold bind at 1 in Hrun.
  destruct quiet; simpl in Hrun.
  - unfold ret in Hrun. invert_pairs. exact Hloop.
  - destruct (print_report m1 m2 m3 (changed_files t) pyup
                (total_charcount_new t) (total_charcount_original t)
                (total_expressions t)
                (clock (ticks w1) - clock (ticks w)) (tick w1))
      as [[u|e] w2] eqn:Hrep; [| invert_pairs].
    apply print_report_trace in Hrep. destruct Hrep as [Htr _].
    unfold ret in Hrun. invert_pairs. rewrite Htr. exact Hloop.
Qed.

(** C3, as stated, fails: a pair whose directory lies below [venv] is
    skipped by [fstringify_files] itself. *)
Lemma fstringify_files_does_not_process_every_pair :
  ~ (forall conv up clock m1 m2 m3 files verbose quiet multiline len_limit
            pyup w n w',
        fstringify_files conv up clock m1 m2 m3 files verbose quiet multiline
          len_limit pyup w = (Ok n, w') ->
        forall file,
          In file files ->
          In (os_path.join (fst file) (snd file)) (reads (trace w'))).
Proof.
  intros claim.
  set (w := Example.world_of
              (Example.one_file "/proj/venv/lib/a.py" "a = '%s' % b")).
  set (run := fstringify_files Example.conv_percent Example.up_nothing
                Example.clock0 Example.pyup_success Example.suggest_pyup
                Example.farewell [("/proj/venv/lib", "a.py")]
                false true false 88 false w).
  assert (Hrun : run = (Ok 0, snd run)) by (vm_compute; reflexivity).
  specialize (claim Example.conv_percent Example.up_nothing
                Example.clock0 Example.pyup_success Example.suggest_pyup
                Example.farewell [("/proj/venv/lib", "a.py")]
                false true false 88 false w 0 (snd run) Hrun
                ("/proj/venv/lib", "a.py") (or_introl eq_refl)).
  vm_compute in claim. exact claim.
Qed.

(** C3, amended.  [fstringify_files] skips every pair whose directory
    string contains one of the names in [BLACKLIST] and processes exactly
    the other pairs, each once and in the order given. *)
Theorem fstringify_files_processes_unlisted
    conv up clock m1 m2 m3 files verbose quiet multiline len_limit pyup w n w' :
  fstringify_files conv up clock m1 m2 m3 files verbose quiet multiline
    len_limit pyup w = (Ok n, w') ->
  reads (trace w')
    = (reads (trace w)
       ++ map (fun file => os_path.join (fst file) (snd file))
            (List.filter (fun file => negb (blacklisted file)) files))%list.
Proof.
  apply fstringify_files_reads.
Qed.

(** Of a pair below [venv] and a pair below [src], the second alone is opened. *)
Lemma fstringify_files_processes_unlisted_witness :
  reads (trace (snd (fstringify_files Example.conv_percent Example.up_nothing
                       Example.clock0 Example.pyup_success
                       Example.suggest_pyup Example.farewell
                       [("/proj/venv/lib", "a.py"); ("/proj/src", "b.py")]
                       false true false 88 false
                       (Example.world_of
                          (Example.one_file "/proj/src/b.py" "a = '%s' % b")))))
    = ["/proj/src/b.py"].
Proof.
  set (w := Example.world_of (Example.one_file "/proj/src/b.py" "a = '%s' % b")).
  set (run := fstringify_files _ _ _ _ _ _ _ _ _ _ _ _ w).
  assert (Hrun : run = (Ok 1, snd run)) by (vm_compute; reflexivity).
  rewrite (fstringify_files_processes_unlisted
             Example.conv_percent Example.up_nothing
             Example.clock0 Example.pyup_success Example.suggest_pyup
             Example.farewell
             [("/proj/venv/lib", "a.py"); ("/proj/src", "b.py")]
             false true false 88 false w 1 (snd run) Hrun).
  reflexivity.
Defined.

(** ** The upgrader pass *)

(** C4.  With [pyup] enabled, the events of one call are those of the
    core (the read and the conditional write) followed by the one
    hand-over to the upgrader, which is missing only when the core
    raised; and when the upgrader reports the file modified, the result
    is changed=True with the core's expression count, the original
    character count and the character count of the file after the
    upgrader pass. *)
Theorem fstringify_file_upgrader_after_core
    conv up filename multiline len_limit w r w' :
  fstringify_file conv up filename multiline len_limit true w = (r, w') ->
  (exists core_events,
      (trace w' = (trace w ++ core_events ++ [EvPyup filename pyup_args])%list
       \/ (trace w' = (trace w ++ core_events)%list /\ exists e, r = Raise e))
      /\ forallb (fun ev => negb (is_pyup_event ev)) core_events = true)
  /\ (forall result w1 f after ro,
        try_statement conv filename multiline len_limit w = (Ok result, w1) ->
        up filename pyup_args (fs w1) = (Ok true, f) ->
        f !! filename = Some (File (Text after) ro) ->
        r = Ok (true, n_changes result, len_original result, len after)
        /\ fs w' = f).
Proof.
  intros Hrun. split.
  - run; rewrite <- ?app_assoc; simpl;
      lazymatch goal with
      | |- exists core, ((?t ++ ?l)%list = _ \/ _) /\ _ =>
          first
            [ exists (removelast l); split;
              [ left; reflexivity | reflexivity ]
            | exists l; split;
              [ right; split; [ reflexivity | eexists; reflexivity ]
              | reflexivity ] ]
      end.
  - intros result w1 f after ro Htry Hup Hafter.
    unfold fstringify_file, bind in Hrun. rewrite Htry in Hrun. simpl in Hrun.
    unfold spy_on_file_io, fix_file in Hrun. simpl in Hrun.
    rewrite Hup in Hrun. simpl in Hrun.
    unfold charcount_stats in Hrun. simpl in Hrun. rewrite Hafter in Hrun.
    assert (Hbefore : exists before ro', fs w1 !! filename
                                         = Some (File (Text before) ro')).
    { clear Hrun Hup Hafter. unfold_driver.
      repeat (simpl in *; invert_pairs; try break_match); simpl;
        try (eexists; eexists; eassumption);
        try (eexists; eexists; apply lookup_insert_eq). }
    destruct Hbefore as (before & ro' & Hbefore). rewrite Hbefore in Hrun.
    unfold ret in Hrun. invert_pairs. split; reflexivity.
Qed.

(** The conversion finds nothing, the upgrader drops a [u] prefix. *)
Lemma fstringify_file_upgrader_after_core_witness :
  fst (fstringify_file Example.conv_nothing Example.up_unicode_prefix
         "/p/a.py" false 88 true
         (Example.world_of (Example.one_file "/p/a.py" "print u'hi'")))
    = Ok (true, 0, 11, 10).
Proof.
  set (w := Example.world_of (Example.one_file "/p/a.py" "print u'hi'")).
  set (run := fstringify_file Example.conv_nothing Example.up_unicode_prefix
                "/p/a.py" false 88 true w).
  destruct (fstringify_file_upgrader_after_core
              Example.conv_nothing Example.up_unicode_prefix
              "/p/a.py" false 88 w (fst run) (snd run)
              (surjective_pairing run)) as [_ Hresult].
  destruct (Hresult (false, 0, 11, 11) (add_trace (EvOpenRead "/p/a.py") w)
              (Example.one_file "/p/a.py" "print 'hi'") "print 'hi'" false)
    as [Hr _].
  - vm_compute. reflexivity.
  - vm_compute. reflexivity.
  - vm_compute. reflexivity.
  - exact Hr.
Defined.

(** ** What [fstringify_file] returns and writes *)

(** The two ways in which the [try] statement completes. *)
Lemma try_statement_ok conv filename multiline len_limit w result w1 :
  try_statement conv filename multiline len_limit w = (Ok result, w1) ->
  exists contents,
    fst (open_read filename w) = Ok contents
    /\ ((exists new_code n,
            conv contents multiline len_limit = Ok (new_code, n)
            /\ new_code <> contents
            /\ result = (true, n, len contents, len new_code)
            /\ fs w1 = <[filename := File (Text new_code) false]> (fs w)
            /\ trace w1
                = (trace w ++ [EvOpenRead filename; EvWrite filename new_code])%list)
         \/ (result = (false, 0, len contents, len contents)
             /\ fs w1 = fs w
             /\ trace w1 = (trace w ++ [EvOpenRead filename])%list)).
Proof.
  intros Hrun. unfold_driver. simpl in Hrun.
  destruct (fs w !! filename) as [[|[disk|] ro]|] eqn:Hfile;
    simpl in Hrun; try discriminate Hrun.
  exists (universal_newlines disk). split; [reflexivity |].
  destruct (conv (universal_newlines disk) multiline len_limit)
    as [[new_code n]|e] eqn:Hconv.
  - destruct (String.eqb new_code (universal_newlines disk)) eqn:Heq;
      simpl in Hrun.
    + invert_pairs. right. repeat split; reflexivity.
    + rewrite Hfile in Hrun. destruct ro; invert_pairs.
      destruct (disk_fault w filename new_code); simpl in Hrun; invert_pairs.
      left. exists new_code, n. apply String.eqb_neq in Heq.
      repeat split; try assumption; try reflexivity.
      simpl. rewrite <- app_assoc. reflexivity.
  - destruct (is_Exception e); simpl in Hrun; invert_pairs.
    right. repeat split; reflexivity.
Qed.

(** After the [try] statement has completed, the file holds text. *)
Lemma try_statement_ok_text conv filename multiline len_limit w result w1 :
  try_statement conv filename multiline len_limit w = (Ok result, w1) ->
  exists text ro, fs w1 !! filename = Some (File (Text text) ro).
Proof.
  intros Htry.
  destruct (try_statement_ok _ _ _ _ _ _ _ Htry)
    as (contents & Hread
        & [(nc & k & _ & _ & _ & Hfs & _) | (_ & Hfs & _)]).
  - exists nc, false. rewrite Hfs. apply lookup_insert_eq.
  - destruct (open_read_ok _ _ _ Hread) as (disk & ro & Hfile & _).
    exists disk, ro. rewrite Hfs. exact Hfile.
Qed.

Lemma app_one_neq {A} (l : list A) (x : A) : l <> (l ++ [x])%list.
Proof.
  intros H. apply (f_equal (@length A)) in H.
  rewrite length_app in H. simpl in H. lia.
Qed.

(** C6.  For a file that is read, with [contents] the text read:
    the core completes with the four counters (False, 0, n, n), [n] the
    character count of [contents], when the conversion returns the same
    text or raises an [Exception], and with (True, count, n, length of the
    new text) and the whole new text written to the same path when the
    conversion returns a different text and the write goes through.
    With [pyup] off [fstringify_file] returns the core's four counters;
    with [pyup] on it returns them when the upgrader reports no change,
    and (True, core count, core original count, count of the file after
    the pass) when the upgrader reports a change.  And every tuple that a
    call returns arises in one of these ways, for either value of
    [pyup]. *)
Theorem fstringify_file_result
    conv up filename multiline len_limit pyup w contents :
  fst (open_read filename w) = Ok contents ->
  (forall k,
      conv contents multiline len_limit = Ok (contents, k) ->
      try_statement conv filename multiline len_limit w
      = (Ok (false, 0, len contents, len contents),
         add_trace (EvOpenRead filename) w))
  /\ (forall e,
        conv contents multiline len_limit = Raise e ->
        is_Exception e = true ->
        try_statement conv filename multiline len_limit w
        = (Ok (false, 0, len contents, len contents), logged_skip filename e w))
  /\ (forall new_code k data,
        conv contents multiline len_limit = Ok (new_code, k) ->
        new_code <> contents ->
        fs w !! filename = Some (File data false) ->
        disk_fault w filename new_code = WriteOk ->
        try_statement conv filename multiline len_limit w
        = (Ok (true, k, len contents, len new_code),
           add_trace (EvWrite filename new_code)
             (set_fs (<[filename := File (Text new_code) false]> (fs w))
                (add_trace (EvOpenRead filename) w))))
  /\ (forall result w1,
        try_statement conv filename multiline len_limit w = (Ok result, w1) ->
        fstringify_file conv up filename multiline len_limit false w
        = (Ok result, w1)
        /\ (forall f,
              up filename pyup_args (fs w1) = (Ok false, f) ->
              fst (fstringify_file conv up filename multiline len_limit true w)
              = Ok result)
        /\ (forall f after ro,
              up filename pyup_args (fs w1) = (Ok true, f) ->
              f !! filename = Some (File (Text after) ro) ->
              fst (fstringify_file conv up filename multiline len_limit true w)
              = Ok (true, n_changes result, len_original result, len after)))
  /\ (forall changed n lo ln w',
        fstringify_file conv up filename multiline len_limit pyup w
        = (Ok (changed, n, lo, ln), w') ->
        exists result w1,
          try_statement conv filename multiline len_limit w = (Ok result, w1)
          /\ ((result = (false, 0, len contents, len contents)
               /\ fs w1 = fs w
               /\ writes (trace w1) = writes (trace w))
              \/ (exists new_code,
                     conv contents multiline len_limit = Ok (new_code, n)
                     /\ new_code <> contents
                     /\ result = (true, n, len contents, len new_code)
                     /\ fs w1 = <[filename := File (Text new_code) false]> (fs w)
                     /\ writes (trace w1)
                        = (writes (trace w) ++ [(filename, new_code)])%list))
          /\ n = n_changes result
          /\ lo = len contents
          /\ (pyup = false -> (changed, n, lo, ln) = result /\ w' = w1)
          /\ (pyup = true ->
              (exists f,
                  up filename pyup_args (fs w1) = (Ok false, f)
                  /\ changed = changes_made result
                  /\ ln = len_new result)
              \/ (exists f after ro,
                     up filename pyup_args (fs w1) = (Ok true, f)
                     /\ f !! filename = Some (File (Text after) ro)
                     /\ fs w' = f
                     /\ changed = true
                     /\ ln = len after))).
Proof.
  intros Hread.
  destruct (open_read_ok _ _ _ Hread) as (disk & ro0 & Hfile & Hcontents).
  split.
  { intros k Hconv. subst contents. unfold_driver. simpl.
    rewrite Hfile, Hconv, String.eqb_refl. reflexivity. }
  split.
  { intros e Hconv Hexc. apply try_statement_conversion_raises; assumption. }
  split.
  { intros new_code k data Hconv Hne Hdata Hfault. subst contents.
    rewrite Hfile in Hdata. inversion Hdata; subst.
    apply String.eqb_neq in Hne.
    unfold_driver. simpl. rewrite Hfile, Hconv, Hne. simpl.
    rewrite Hfile, Hfault. reflexivity. }
  split.
  { intros result w1 Htry.
    split; [unfold fstringify_file, bind; rewrite Htry; reflexivity |].
    split.
    - intros f Hup. unfold fstringify_file, bind. rewrite Htry. simpl.
      unfold spy_on_file_io, fix_file. simpl. rewrite Hup. reflexivity.
    - intros f after ro Hup Hafter.
      destruct (try_statement_ok_text _ _ _ _ _ _ _ Htry)
        as (text & ro1 & Hbefore).
      unfold fstringify_file, bind. rewrite Htry. simpl.
      unfold spy_on_file_io, fix_file. simpl. rewrite Hup. simpl.
      unfold charcount_stats. simpl. rewrite Hbefore, Hafter. reflexivity. }
  intros changed n lo ln w' Hrun. unfold fstringify_file, bind in Hrun.
  destruct (try_statement conv filename multiline len_limit w)
    as [[result|e] w1] eqn:Htry; [| discriminate Hrun].
  exists result, w1. split; [reflexivity |].
  destruct (try_statement_ok _ _ _ _ _ _ _ Htry) as (contents' & Hread' & Hcases).
  assert (contents' = contents) by congruence. subst contents'.
  assert (Hshape :
            (result = (false, 0, len contents, len contents)
             /\ fs w1 = fs w
             /\ writes (trace w1) = writes (trace w))
            \/ (exists new_code,
                   conv contents multiline len_limit
                   = Ok (new_code, n_changes result)
                   /\ new_code <> contents
                   /\ result
                      = (true, n_changes result, len contents, len new_code)
                   /\ fs w1 = <[filename := File (Text new_code) false]> (fs w)
                   /\ writes (trace w1)
                      = (writes (trace w) ++ [(filename, new_code)])%list)).
  { destruct Hcases as [(nc & k & Hconv & Hne & -> & Hfs & Htr)
                       | (-> & Hfs & Htr)].
    - right. exists nc. rewrite Htr, writes_app. simpl. auto.
    - left. rewrite Htr, writes_app. simpl. rewrite app_nil_r. auto. }
  assert (Hlo : len_original result = len contents).
  { destruct Hcases as [(nc & k & _ & _ & -> & _) | (-> & _)]; reflexivity. }
  destruct pyup; simpl in Hrun.
  - unfold spy_on_file_io, fix_file in Hrun. simpl in Hrun.
    destruct (up filename pyup_args (fs w1)) as [[upgraded|e] f] eqn:Hup;
      simpl in Hrun; [| discriminate Hrun].
    destruct upgraded.
    + unfold charcount_stats in Hrun. simpl in Hrun.
      destruct (fs w1 !! filename) as [[|[before|] ro1]|];
        try discriminate Hrun.
      destruct (f !! filename) as [[|[after|] ro2]|] eqn:Hafter;
        try discriminate Hrun.
      unfold ret in Hrun. simpl in Hrun. invert_pairs.
      split; [exact Hshape |]. split; [reflexivity |]. split; [exact Hlo |].
      split; [discriminate |]. intros _. right.
      exists f, after, ro2. auto.
    + unfold ret in Hrun. invert_pairs. simpl.
      split; [exact Hshape |]. split; [reflexivity |]. split; [exact Hlo |].
      split; [discriminate |]. intros _. left. exists f. auto.
  - unfold ret in Hrun. invert_pairs.
    split; [exact Hshape |]. split; [reflexivity |]. split; [exact Hlo |].
    split; [auto | discriminate].
Qed.

(** One percent-format expression is converted and written back. *)
Lemma fstringify_file_result_witness :
  fst (fstringify_file Example.conv_percent Example.up_nothing
         "/p/a.py" false 88 false
         (Example.world_of (Example.one_file "/p/a.py" "a = '%s' % b")))
    = Ok (true, 1, 12, 10)
  /\ fs (snd (fstringify_file Example.conv_percent Example.up_nothing
                "/p/a.py" false 88 false
                (Example.world_of (Example.one_file "/p/a.py" "a = '%s' % b"))))
       !! "/p/a.py"
     = Some (File (Text "a = f'{b}'") false).
Proof.
  set (w := Example.world_of (Example.one_file "/p/a.py" "a = '%s' % b")).
  destruct (fstringify_file_result
              Example.conv_percent Example.up_nothing "/p/a.py" false 88 false
              w "a = '%s' % b" eq_refl)
    as (_ & _ & Hwrite & Hcall & _).
  specialize (Hwrite "a = f'{b}'" 1 (Text "a = '%s' % b")).
  assert (Htry := Hwrite ltac:(vm_compute; reflexivity) ltac:(discriminate)
                    ltac:(vm_compute; reflexivity) eq_refl).
  destruct (Hcall _ _ Htry) as (Hoff & _).
  rewrite Hoff. split; [reflexivity |]. simpl. apply lookup_insert_eq.
Defined.

(** ** The aggregate report *)

Lemma add_result_aggregate t r rs :
  add_totals (add_result t r) (aggregate rs) = add_totals t (aggregate (r :: rs)).
Proof.
  destruct r as [[[changed n] lo] ln]. destruct t as [cf t_orig t_new te].
  unfold add_result, add_totals, aggregate, count_changed, sum_expressions,
    sum_original, sum_new, sum_Z, changes_made, n_changes, len_original,
    len_new.
  destruct changed; simpl length; simpl fold_right; simpl;
    rewrite ?Nat2Z.inj_succ; f_equal; lia.
Qed.

Lemma add_totals_nil t : add_totals t (aggregate []) = t.
Proof.
  destruct t. unfold add_totals, aggregate. simpl.
  f_equal; unfold count_changed, sum_original, sum_new, sum_expressions;
    simpl; lia.
Qed.

(** The loop adds up what [file_results] keeps. *)
Lemma files_loop_file_results conv up files verbose quiet multiline len_limit
    pyup :
  forall t w,
    files_loop conv up files verbose quiet multiline len_limit pyup t w
    = match file_results conv up files verbose quiet multiline len_limit
              pyup w with
      | (Ok rs, w') => (Ok (add_totals t (aggregate rs)), w')
      | (Raise e, w') => (Raise e, w')
      end.
Proof.
  induction files as [|file rest IH]; intros t w; simpl.
  - unfold ret. rewrite add_totals_nil. reflexivity.
  - destruct (blacklisted file); [apply IH |].
    unfold bind.
    destruct (process_file conv up file verbose quiet multiline len_limit
                pyup w) as [[r|e] w1]; [| reflexivity].
    rewrite IH.
    destruct (file_results conv up rest verbose quiet multiline len_limit
                pyup w1) as [[rs|e] w2]; [| reflexivity].
    unfold ret. rewrite add_result_aggregate. reflexivity.
Qed.

Lemma add_totals0 t : add_totals totals0 t = t.
Proof. destruct t. unfold add_totals, totals0. simpl. reflexivity. Qed.

Lemma print_report_ok m1 m2 m3 changed pyup cc_new cc_orig expr time w w' :
  print_report m1 m2 m3 changed pyup cc_new cc_orig expr time w = (Ok tt, w') ->
  stdout w'
  = (stdout w
     ++ report_lines m1 m2 m3 changed pyup cc_new cc_orig expr time)%list.
Proof.
  unfold print_report, report_lines, bind, print, ret, raise. intros Hrun.
  destruct (Z.eqb changed 0); destruct pyup; simpl in Hrun;
    try (destruct (Z.eqb cc_orig 0); simpl in Hrun; [discriminate Hrun |];
         destruct (true_div_overflows (cc_orig - cc_new) cc_orig);
         simpl in Hrun; [discriminate Hrun |]);
    invert_pairs; simpl; rewrite <- ?app_assoc; reflexivity.
Qed.

(** A run of [fstringify_files] that returns, taken apart. *)
Lemma fstringify_files_ok conv up clock m1 m2 m3 files verbose quiet
    multiline len_limit pyup w n w' :
  fstringify_files conv up clock m1 m2 m3 files verbose quiet multiline
    len_limit pyup w = (Ok n, w') ->
  exists rs w1,
    file_results conv up files verbose quiet multiline len_limit pyup (tick w)
      = (Ok rs, w1)
    /\ n = count_changed rs
    /\ (if quiet then w' = tick w1
        else print_report m1 m2 m3 (count_changed rs) pyup (sum_new rs)
               (sum_original rs) (sum_expressions rs)
               (clock (ticks w1) - clock (ticks w)) (tick w1)
             = (Ok tt, w')).
Proof.
  unfold fstringify_files, time_time. unfold bind at 1. intros Hrun.
  unfold bind at 1 in Hrun. rewrite files_loop_file_results in Hrun.
  destruct (file_results conv up files verbose quiet multiline len_limit pyup
              (tick w)) as [[rs|e] w1]; [| discriminate Hrun].
  rewrite add_totals0 in Hrun. simpl in Hrun.
  exists rs, w1. split; [reflexivity |].
  unfold bind at 1 in Hrun. unfold bind at 1 in Hrun.
  destruct quiet; simpl in Hrun.
  - unfold ret in Hrun. invert_pairs. split; reflexivity.
  - destruct (print_report m1 m2 m3 (count_changed rs) pyup (sum_new rs)
                (sum_original rs) (sum_expressions rs)
                (clock (ticks w1) - clock (ticks w)) (tick w1))
      as [[[]|e] w2] eqn:Hrep; [| discriminate Hrun].
    unfold ret in Hrun. invert_pairs. split; reflexivity.
Qed.

(** C5.  For a run of [fstringify_files] that returns, with [rs] the
    per-file results of the files it processed: the number returned is
    the number of results with the changed flag, and the report it prints
    (unless [quiet]) is [print_report]'s for that number, the sum of the
    expression counts over the changed results and the sums of the
    original and new character counts over all results; the reduction and
    the percentage in it are computed from these two sums. *)
Theorem fstringify_files_aggregate
    conv up clock m1 m2 m3 files verbose quiet multiline len_limit pyup w n w' :
  fstringify_files conv up clock m1 m2 m3 files verbose quiet multiline
    len_limit pyup w = (Ok n, w') ->
  exists rs w1,
    file_results conv up files verbose quiet multiline len_limit pyup (tick w)
      = (Ok rs, w1)
    /\ n = Z.of_nat (length (List.filter changes_made rs))
    /\ (quiet = true -> stdout w' = stdout w1)
    /\ (quiet = false ->
        stdout w'
        = (stdout w1
           ++ report_lines m1 m2 m3
                (Z.of_nat (length (List.filter changes_made rs)))
                pyup
                (sum_Z (map len_new rs))
                (sum_Z (map len_original rs))
                (sum_Z (map n_changes (List.filter changes_made rs)))
                (clock (ticks w1) - clock (ticks w)))%list).
Proof.
  intros Hrun.
  destruct (fstringify_files_ok _ _ _ _ _ _ _ _ _ _ _ _ _ _ _ Hrun)
    as (rs & w1 & Hrs & Hn & Hreport).
  exists rs, w1. split; [exact Hrs |]. split; [exact Hn |].
  split; intros ->.
  - rewrite Hreport. reflexivity.
  - apply print_report_ok in Hreport. exact Hreport.
Qed.

(** Two files, of which the first is converted. *)
Lemma fstringify_files_aggregate_witness :
  fst (fstringify_files Example.conv_percent Example.up_nothing
         Example.clock0 Example.pyup_success Example.suggest_pyup
         Example.farewell
         [("/p", "a.py"); ("/p", "b.py")] false false false 88 false
         (Example.world_of
            (<["/p/a.py" := File (Text "a = '%s' % b") false]>
               (Example.one_file "/p/b.py" "x = 1"))))
    = Ok 1
  /\ exists rs,
       rs = [(true, 1, 12, 10); (false, 0, 5, 5)]
       /\ 1 = Z.of_nat (length (List.filter changes_made rs)).
Proof.
  set (w := Example.world_of
              (<["/p/a.py" := File (Text "a = '%s' % b") false]>
                 (Example.one_file "/p/b.py" "x = 1"))).
  set (run := fstringify_files Example.conv_percent Example.up_nothing
                Example.clock0 Example.pyup_success Example.suggest_pyup
                Example.farewell
                [("/p", "a.py"); ("/p", "b.py")] false false false 88 false w).
  assert (Hrun : run = (Ok 1, snd run)) by (vm_compute; reflexivity).
  destruct (fstringify_files_aggregate
              Example.conv_percent Example.up_nothing
              Example.clock0 Example.pyup_success Example.suggest_pyup
              Example.farewell
              [("/p", "a.py"); ("/p", "b.py")] false false false 88 false
              w 1 (snd run) Hrun)
    as (rs & w1 & Hrs & Hn & _).
  split; [rewrite Hrun; reflexivity |].
  exists rs. split; [| exact Hn].
  vm_compute in Hrs. inversion Hrs. reflexivity.
Defined.

(** ** The entry point *)

Lemma count_changed_nonzero rs :
  count_changed rs <> 0 <-> exists r, In r rs /\ changes_made r = true.
Proof.
  unfold count_changed. induction rs as [|r rs IH]; simpl.
  - split; [intros H; destruct H; reflexivity | intros (r & [] & _)].
  - destruct (changes_made r) eqn:Hr; simpl.
    + split; [intros _; exists r; auto | intros _; lia].
    + rewrite IH. split.
      * intros (r' & Hin & Hc). exists r'. auto.
      * intros (r' & [Heq | Hin] & Hc); [subst; congruence |].
        exists r'. auto.
Qed.

(** A path that does not exist stops the run with exit status 1. *)
Lemma fstringify_missing_path conv up find abspath clock m1 m2 m3
    file_or_path rest verbose quiet multiline len_limit pyup fail w :
  fs w !! abspath file_or_path = None ->
  fstringify conv up find abspath clock m1 m2 m3 (file_or_path :: rest)
    verbose quiet multiline len_limit pyup fail w
  = (Raise (SystemExit 1), add_stdout (MsgNotFound file_or_path) w).
Proof.
  intros Hmissing. unfold fstringify. unfold bind at 1. simpl.
  unfold bind at 1. unfold bind at 1. unfold exists_ at 1.
  rewrite Hmissing. simpl. reflexivity.
Qed.

(** C10.  A run of [fstringify] that returns gives 0 when
    [fail_on_changes] is off; when it is on it gives the number that
    [fstringify_files] reported, which is the number of per-file results
    with the changed flag and is nonzero exactly when one of them has
    it. *)
Theorem fstringify_status
    conv up find abspath clock m1 m2 m3 files_or_paths verbose quiet multiline
    len_limit pyup fail_on_changes w v w' :
  fstringify conv up find abspath clock m1 m2 m3 files_or_paths verbose quiet
    multiline len_limit pyup fail_on_changes w = (Ok v, w') ->
  exists files w0 status rs w1,
    collect_files find abspath files_or_paths [] w = (Ok files, w0)
    /\ fstringify_files conv up clock m1 m2 m3 files verbose quiet multiline
         len_limit pyup w0 = (Ok status, w')
    /\ file_results conv up files verbose quiet multiline len_limit pyup
         (tick w0) = (Ok rs, w1)
    /\ status = Z.of_nat (length (List.filter changes_made rs))
    /\ (fail_on_changes = false -> v = 0)
    /\ (fail_on_changes = true -> v = status)
    /\ (status <> 0 <-> exists r, In r rs /\ changes_made r = true).
Proof.
  unfold fstringify. unfold bind at 1. intros Hrun.
  destruct (collect_files find abspath files_or_paths [] w)
    as [[files|e] w0]; [| discriminate Hrun].
  unfold bind at 1 in Hrun.
  destruct (fstringify_files conv up clock m1 m2 m3 files verbose quiet
              multiline len_limit pyup w0) as [[status|e] w2] eqn:Hfiles;
    [| discriminate Hrun].
  destruct (fstringify_files_ok _ _ _ _ _ _ _ _ _ _ _ _ _ _ _ Hfiles)
    as (rs & w1 & Hrs & Hn & _).
  exists files, w0, status, rs, w1.
  assert (Hw : w2 = w' /\ v = if fail_on_changes then status else 0).
  { destruct fail_on_changes; unfold ret in Hrun; invert_pairs; auto. }
  destruct Hw as [-> Hv].
  split; [reflexivity |]. split; [exact Hfiles |]. split; [exact Hrs |].
  split; [exact Hn |].
  split; [intros ->; exact Hv |]. split; [intros ->; exact Hv |].
  rewrite Hn. apply count_changed_nonzero.
Qed.

(** One converted file with [fail_on_changes] on: the status is 1. *)
Lemma fstringify_status_witness :
  fst (fstringify Example.conv_percent Example.up_nothing Example.no_py_files
         Example.abspath_id Example.clock0 Example.pyup_success
         Example.suggest_pyup Example.farewell
         ["/p/a.py"] false true false 88 false true
         (Example.world_of (Example.one_file "/p/a.py" "a = '%s' % b")))
    = Ok 1
  /\ exists files, files = [("/p", "a.py")].
Proof.
  set (w := Example.world_of (Example.one_file "/p/a.py" "a = '%s' % b")).
  set (run := fstringify Example.conv_percent Example.up_nothing
                Example.no_py_files Example.abspath_id Example.clock0
                Example.pyup_success Example.suggest_pyup Example.farewell
                ["/p/a.py"] false true false 88 false true w).
  assert (Hrun : run = (Ok 1, snd run)) by (vm_compute; reflexivity).
  destruct (fstringify_status
              Example.conv_percent Example.up_nothing Example.no_py_files
              Example.abspath_id Example.clock0 Example.pyup_success
              Example.suggest_pyup Example.farewell
              ["/p/a.py"] false true false 88 false true w 1 (snd run) Hrun)
    as (files & w0 & status & rs & w1 & Hfiles & _).
  split; [rewrite Hrun; reflexivity |].
  exists files. vm_compute in Hfiles. inversion Hfiles. reflexivity.
Defined.

(** C7.  A file that exists but cannot be read stops the whole run: the
    first of two files is not UTF-8, the [except] block of
    [fstringify_file] raises [UnboundLocalError] while it builds the
    no-change result, and the second file is never opened. *)
Theorem fstringify_unreadable_file_aborts_run :
  let w := Example.world_of Example.bad_and_good in
  let run :=
    fstringify Example.conv_percent Example.up_nothing Example.no_py_files
      Example.abspath_id Example.clock0 Example.pyup_success
      Example.suggest_pyup Example.farewell
      ["/p/bad.py"; "/p/good.py"] false false false 88 false false w in
  fst run = Raise (UnboundLocalError "contents")
  /\ reads (trace (snd run)) = ["/p/bad.py"]
  /\ fs (snd run) !! "/p/good.py" = Some (File (Text "a = '%s' % b") false)
  /\ stdout (snd run) = [MsgSkipping "/p/bad.py" UnicodeDecodeError].
Proof.
  vm_compute. repeat split; reflexivity.
Qed.

(** * Further properties of the driver *)

(** ** Strings *)

Lemma append_cons (x : ascii) (a b : string) :
  String x a ++ b = String x (a ++ b).
Proof. reflexivity. Qed.

Lemma append_nil_l (a : string) : "" ++ a = a.
Proof. reflexivity. Qed.

Lemma append_assoc (a b c : string) : (a ++ b) ++ c = a ++ (b ++ c).
Proof.
  induction a as [|x a IH]; [reflexivity |].
  rewrite !append_cons, IH. reflexivity.
Qed.

Lemma append_nil_r (a : string) : a ++ "" = a.
Proof.
  induction a as [|x a IH]; [reflexivity |].
  rewrite append_cons, IH. reflexivity.
Qed.

Lemma prefix_iff (b s : string) :
  String.prefix b s = true <-> exists post, s = b ++ post.
Proof.
  revert b. induction s as [|c s IH]; intros [|x b]; simpl.
  - split; [exists ""; reflexivity | reflexivity].
  - split; [discriminate | intros [post H]; discriminate H].
  - split; [intros _; eexists; reflexivity | reflexivity].
  - destruct (ascii_dec x c) as [->|Hne].
    + rewrite IH. split; intros [post H]; exists post.
      * rewrite H. reflexivity.
      * rewrite append_cons in H. inversion H. reflexivity.
    + split; [discriminate |].
      intros [post H]. rewrite append_cons in H.
      injection H as Hc _. congruence.
Qed.

Lemma str_contains_nil (b : string) :
  str_contains b "" = String.prefix b "" || false.
Proof. reflexivity. Qed.

Lemma str_contains_cons (b : string) (c : ascii) (s : string) :
  str_contains b (String c s) = String.prefix b (String c s) || str_contains b s.
Proof. reflexivity. Qed.

(** [b in s] holds exactly when [s] is some text, then [b], then some
    text. *)
Lemma str_contains_iff (b s : string) :
  str_contains b s = true <-> exists pre post, s = pre ++ b ++ post.
Proof.
  split.
  - induction s as [|c s IH].
    + rewrite str_contains_nil, orb_false_r. intros H.
      apply prefix_iff in H. destruct H as [post H].
      exists "", post. exact H.
    + rewrite str_contains_cons, orb_true_iff. intros [H | H].
      * apply prefix_iff in H. destruct H as [post H].
        exists "", post. exact H.
      * destruct (IH H) as (pre & post & ->).
        exists (String c pre), post. reflexivity.
  - intros (pre & post & ->). induction pre as [|c pre IH].
    + rewrite append_nil_l.
      assert (H : String.prefix b (b ++ post) = true)
        by (apply prefix_iff; eexists; reflexivity).
      destruct (b ++ post);
        [rewrite str_contains_nil | rewrite str_contains_cons];
        rewrite H; reflexivity.
    + rewrite append_cons, str_contains_cons, IH. apply orb_true_r.
Qed.

(** ** The blacklist *)

Lemma blacklisted_substring (file : string * string) :
  blacklisted file = true
  <-> exists b pre post,
        In b [".tox"; "venv"; "site-packages"; ".eggs"]
        /\ fst file = pre ++ b ++ post.
Proof.
  unfold blacklisted, BLACKLIST. rewrite existsb_exists. split.
  - intros (b & Hin & Hc). apply str_contains_iff in Hc.
    destruct Hc as (pre & post & Hc). exists b, pre, post. auto.
  - intros (b & pre & post & Hin & Hc). exists b. split; [exact Hin |].
    apply str_contains_iff. exists pre, post. exact Hc.
Qed.

(** X1.  A pair is skipped exactly when its directory string has one of
    the four blacklisted names somewhere inside it, as a substring and not
    only as a whole path component; the file name plays no part. *)
Theorem blacklisted_iff (file : string * string) :
  blacklisted file = true
  <-> exists b pre post,
        In b [".tox"; "venv"; "site-packages"; ".eggs"]
        /\ fst file = pre ++ b ++ post.
Proof.
  apply blacklisted_substring.
Qed.

(** X2.  Once a directory is blacklisted, so is every directory whose
    string contains it: every pair below a blacklisted directory is
    skipped, whatever its file name. *)
Theorem blacklisted_extends (dir name pre post name' : string) :
  blacklisted (dir, name) = true ->
  blacklisted (pre ++ dir ++ post, name') = true.
Proof.
  intros H. apply blacklisted_substring in H.
  destruct H as (b & p & q & Hin & Hdir). simpl in Hdir. subst dir.
  apply blacklisted_substring. exists b, (pre ++ p), (q ++ post).
  split; [exact Hin |]. simpl.
  rewrite !append_assoc. reflexivity.
Qed.

(** A virtual environment and a package installed inside it. *)
Lemma blacklisted_extends_witness :
  blacklisted ("/proj/venv", "a.py") = true
  /\ blacklisted ("/proj/venv/lib/pkg", "b.py") = true.
Proof.
  split; [reflexivity |].
  apply (blacklisted_extends "/proj/venv" "a.py" "" "/lib/pkg" "b.py").
  reflexivity.
Defined.

(** ** The report *)


(** ** How a call of [fstringify_file] can fail *)

Lemma open_read_raises filename w e :
  fst (open_read filename w) = Raise e ->
  read_error filename (fs w !! filename) = Some e.
Proof.
  unfold open_read.
  destruct (fs w !! filename) as [[|[s|] ro]|]; simpl; intros H;
    inversion H; reflexivity.
Qed.

(** X4.  When the file cannot be read (it is missing, a directory or not
    UTF-8), [fstringify_file] prints the skip message and then raises
    [UnboundLocalError] for [contents], with [pyup] on or off: the
    upgrader is not called and no file is touched. *)
Theorem fstringify_file_unreadable
    conv up filename multiline len_limit pyup w e :
  fst (open_read filename w) = Raise e ->
  let run := fstringify_file conv up filename multiline len_limit pyup w in
  fst run = Raise (UnboundLocalError "contents")
  /\ fs (snd run) = fs w
  /\ trace (snd run) = (trace w ++ [EvOpenRead filename])%list
  /\ stdout (snd run) = (stdout w ++ [MsgSkipping filename e])%list
  /\ stderr (snd run) = (stderr w ++ [MsgTraceback e])%list.
Proof.
  intros Hread run. apply open_read_raises in Hread.
  subst run. unfold fstringify_file, bind.
  rewrite (try_statement_read_raises _ _ _ _ _ _ Hread).
  repeat split; reflexivity.
Qed.

(** A path that is not in the file system. *)
Lemma fstringify_file_unreadable_witness :
  fst (fstringify_file Example.conv_percent Example.up_nothing
         "/p/none.py" false 88 true (Example.world_of ∅))
    = Raise (UnboundLocalError "contents").
Proof.
  apply (fstringify_file_unreadable
           Example.conv_percent Example.up_nothing "/p/none.py" false 88 true
           (Example.world_of ∅) (FileNotFoundError "/p/none.py")).
  reflexivity.
Defined.

(** X5.  The write is not guarded: when the conversion produces a new
    text for a file that is read-only, [PermissionError] leaves
    [fstringify_file], the file keeps its text, nothing is printed and the
    upgrader is not called. *)
Theorem fstringify_file_write_fails
    conv up filename multiline len_limit pyup w data contents new_code n :
  fs w !! filename = Some (File data true) ->
  fst (open_read filename w) = Ok contents ->
  conv contents multiline len_limit = Ok (new_code, n) ->
  new_code <> contents ->
  fstringify_file conv up filename multiline len_limit pyup w
    = (Raise (PermissionError filename), add_trace (EvOpenRead filename) w).
Proof.
  intros Hdata Hread Hconv Hne. apply String.eqb_neq in Hne.
  destruct (open_read_ok _ _ _ Hread) as (disk & ro & Hfile & ->).
  rewrite Hfile in Hdata. inversion Hdata; subst.
  unfold_driver. simpl. rewrite Hfile, Hconv, Hne. simpl.
  rewrite Hfile. reflexivity.
Qed.

(** A read-only file with one expression to convert. *)
Lemma fstringify_file_write_fails_witness :
  fst (fstringify_file Example.conv_percent Example.up_nothing
         "/p/a.py" false 88 true
         (Example.world_of {[ "/p/a.py" := File (Text "a = '%s' % b") true ]}))
    = Raise (PermissionError "/p/a.py").
Proof.
  rewrite (fstringify_file_write_fails
             Example.conv_percent Example.up_nothing "/p/a.py" false 88 true
             (Example.world_of
                {[ "/p/a.py" := File (Text "a = '%s' % b") true ]})
             (Text "a = '%s' % b") "a = '%s' % b" "a = f'{b}'" 1).
  - reflexivity.
  - vm_compute. reflexivity.
  - vm_compute. reflexivity.
  - vm_compute. reflexivity.
  - discriminate.
Defined.

(** X6.  An exception of the conversion that does not derive from
    [Exception] ([KeyboardInterrupt], [SystemExit]) passes through
    [fstringify_file] unlogged: nothing is printed or written and the
    upgrader is not called. *)
Theorem fstringify_file_base_exception
    conv up filename multiline len_limit pyup w contents e :
  fst (open_read filename w) = Ok contents ->
  conv contents multiline len_limit = Raise e ->
  is_Exception e = false ->
  fstringify_file conv up filename multiline len_limit pyup w
    = (Raise e, add_trace (EvOpenRead filename) w).
Proof.
  intros Hread Hconv Hexc.
  destruct (open_read_ok _ _ _ Hread) as (disk & ro & Hfile & ->).
  unfold_driver. simpl. rewrite Hfile, Hconv, Hexc. reflexivity.
Qed.

(** The user interrupts the conversion of a file. *)
Lemma fstringify_file_base_exception_witness :
  fst (fstringify_file Example.conv_interrupted Example.up_nothing
         "/p/a.py" false 88 true
         (Example.world_of (Example.one_file "/p/a.py" "x = 1")))
    = Raise KeyboardInterrupt.
Proof.
  rewrite (fstringify_file_base_exception
             Example.conv_interrupted Example.up_nothing "/p/a.py" false 88
             true (Example.world_of (Example.one_file "/p/a.py" "x = 1"))
             "x = 1" KeyboardInterrupt).
  - reflexivity.
  - vm_compute. reflexivity.
  - reflexivity.
  - reflexivity.
Defined.

(** X7.  The file is rewritten in place: when the write of the new text
    fails after the file was opened for writing, the exception leaves
    [fstringify_file], the old text is gone and the file holds only the
    part of the new text that was written; nothing is printed and the
    upgrader is not called. *)
Theorem fstringify_file_write_interrupted
    conv up filename multiline len_limit pyup w data contents new_code n e
    written :
  fs w !! filename = Some (File data false) ->
  fst (open_read filename w) = Ok contents ->
  conv contents multiline len_limit = Ok (new_code, n) ->
  new_code <> contents ->
  disk_fault w filename new_code = WriteFails e written ->
  let part := String.substring 0 written new_code in
  fstringify_file conv up filename multiline len_limit pyup w
  = (Raise e,
     add_trace (EvWriteFailed filename part)
       (set_fs (<[filename := File (Text part) false]> (fs w))
          (add_trace (EvOpenRead filename) w))).
Proof.
  intros Hdata Hread Hconv Hne Hfault part. apply String.eqb_neq in Hne.
  destruct (open_read_ok _ _ _ Hread) as (disk & ro & Hfile & ->).
  rewrite Hfile in Hdata. inversion Hdata; subst.
  unfold_driver. simpl. rewrite Hfile, Hconv, Hne. simpl.
  rewrite Hfile, Hfault. reflexivity.
Qed.

(** The disk is full: the file to convert ends up empty. *)
Lemma fstringify_file_write_interrupted_witness :
  fst (fstringify_file Example.conv_percent Example.up_nothing
         "/p/a.py" false 88 false
         (Example.full_disk_world_of
            (Example.one_file "/p/a.py" "a = '%s' % b")))
    = Raise (OSError "No space left on device")
  /\ fs (snd (fstringify_file Example.conv_percent Example.up_nothing
                "/p/a.py" false 88 false
                (Example.full_disk_world_of
                   (Example.one_file "/p/a.py" "a = '%s' % b"))))
       !! "/p/a.py"
     = Some (File (Text "") false).
Proof.
  rewrite (fstringify_file_write_interrupted
             Example.conv_percent Example.up_nothing "/p/a.py" false 88 false
             (Example.full_disk_world_of
                (Example.one_file "/p/a.py" "a = '%s' % b"))
             (Text "a = '%s' % b") "a = '%s' % b" "a = f'{b}'" 1
             (OSError "No space left on device") 0).
  - split; [reflexivity |]. simpl. apply lookup_insert_eq.
  - vm_compute. reflexivity.
  - vm_compute. reflexivity.
  - vm_compute. reflexivity.
  - discriminate.
  - reflexivity.
Defined.

(** ** What a run leaves untouched *)

Lemma fstringify_file_other_paths
    conv up filename multiline len_limit w r w' p :
  fstringify_file conv up filename multiline len_limit false w = (r, w') ->
  p <> filename ->
  fs w' !! p = fs w !! p.
Proof.
  intros Hrun Hp.
  run; simpl; try reflexivity; apply lookup_insert_ne; congruence.
Qed.

(** X8.  With [pyup] off, a call of [fstringify_file] changes no path of
    the file system other than its own, however it ends. *)
Theorem fstringify_file_frame
    conv up filename multiline len_limit w r w' p :
  fstringify_file conv up filename multiline len_limit false w = (r, w') ->
  p <> filename ->
  fs w' !! p = fs w !! p.
Proof.
  apply fstringify_file_other_paths.
Qed.

(** A second file next to the one that is converted. *)
Lemma fstringify_file_frame_witness :
  fs (snd (fstringify_file Example.conv_percent Example.up_nothing
             "/p/good.py" false 88 false (Example.world_of Example.bad_and_good)))
    !! "/p/bad.py"
  = Some (File Undecodable false).
Proof.
  rewrite (fstringify_file_frame
             Example.conv_percent Example.up_nothing "/p/good.py" false 88
             (Example.world_of Example.bad_and_good)
             (fst (fstringify_file Example.conv_percent Example.up_nothing
                     "/p/good.py" false 88 false
                     (Example.world_of Example.bad_and_good)))
             (snd (fstringify_file Example.conv_percent Example.up_nothing
                     "/p/good.py" false 88 false
                     (Example.world_of Example.bad_and_good)))
             "/p/bad.py").
  - vm_compute. reflexivity.
  - symmetry. apply surjective_pairing.
  - discriminate.
Defined.

Lemma process_file_frame conv up file verbose quiet multiline len_limit
    w r w' p :
  process_file conv up file verbose quiet multiline len_limit false w = (r, w') ->
  p <> os_path.join (fst file) (snd file) ->
  fs w' !! p = fs w !! p.
Proof.
  unfold process_file, bind at 1. intros Hrun Hp.
  destruct (fstringify_file conv up (os_path.join (fst file) (snd file))
              multiline len_limit false w) as [[res|e] w1] eqn:Hfile;
    eapply fstringify_file_other_paths in Hfile; try exact Hp.
  - unfold bind, print, ret in Hrun.
    destruct (verbose && negb quiet); simpl in Hrun; invert_pairs; exact Hfile.
  - invert_pairs. exact Hfile.
Qed.

Lemma files_loop_frame conv up files verbose quiet multiline len_limit p :
  ~ In p (processed files) ->
  forall t w r w',
    files_loop conv up files verbose quiet multiline len_limit false t w
      = (r, w') ->
    fs w' !! p = fs w !! p.
Proof.
  unfold processed.
  induction files as [|file rest IH]; intros Hp t w r w' Hrun; simpl in *.
  - unfold ret in Hrun. invert_pairs. reflexivity.
  - destruct (blacklisted file) eqn:Hbl; simpl in Hp.
    + eapply IH; eassumption.
    + assert (Hne : p <> os_path.join (fst file) (snd file))
        by (intros ->; apply Hp; left; reflexivity).
      assert (Hrest : ~ In p (map (fun file => os_path.join (fst file) (snd file))
                                (List.filter (fun file => negb (blacklisted file))
                                   rest)))
        by (intros H; apply Hp; right; exact H).
      unfold bind at 1 in Hrun.
      destruct (process_file conv up file verbose quiet multiline len_limit
                  false w) as [[res|e] w1] eqn:Hfile;
        apply process_file_frame with (p := p) in Hfile; try exact Hne.
      * rewrite <- Hfile. eapply IH; eassumption.
      * invert_pairs. exact Hfile.
Qed.

(** X9.  With [pyup] off, a run of [fstringify_files] changes no path
    other than those of the pairs it processes, however it ends: files of
    skipped pairs and files that were not listed keep their text. *)
Theorem fstringify_files_frame
    conv up clock m1 m2 m3 files verbose quiet multiline len_limit w r w' p :
  fstringify_files conv up clock m1 m2 m3 files verbose quiet multiline
    len_limit false w = (r, w') ->
  ~ In p (map (fun file => os_path.join (fst file) (snd file))
            (List.filter (fun file => negb (blacklisted file)) files)) ->
  fs w' !! p = fs w !! p.
Proof.
  unfold fstringify_files, time_time. unfold bind at 1. intros Hrun Hp.
  unfold bind at 1 in Hrun.
  destruct (files_loop conv up files verbose quiet multiline len_limit false
              totals0 (tick w)) as [[t|e] w1] eqn:Hloop;
    apply files_loop_frame with (p := p) in Hloop; try exact Hp;
    simpl in Hloop; [| invert_pairs; exact Hloop].
  unfold bind at 1 in Hrun. unfold bind at 1 in Hrun.
  destruct quiet; simpl in Hrun.
  - unfold ret in Hrun. invert_pairs. exact Hloop.
  - destruct (print_report m1 m2 m3 (changed_files t) false
                (total_charcount_new t) (total_charcount_original t)
                (total_expressions t)
                (clock (ticks w1) - clock (ticks w)) (tick w1))
      as [[u|e] w2] eqn:Hrep;
      apply print_report_trace in Hrep; destruct Hrep as [_ Hfs];
      unfold ret in Hrun; invert_pairs; rewrite Hfs; exact Hloop.
Qed.

(** The file below [venv] is skipped and keeps its text. *)
Lemma fstringify_files_frame_witness :
  fs (snd (fstringify_files Example.conv_percent Example.up_nothing
             Example.clock0 Example.pyup_success Example.suggest_pyup
             Example.farewell
             [("/proj/venv/lib", "a.py"); ("/proj/src", "b.py")]
             false true false 88 false
             (Example.world_of
                (<["/proj/venv/lib/a.py" := File (Text "a = '%s' % b") false]>
                   (Example.one_file "/proj/src/b.py" "a = '%s' % b")))))
    !! "/proj/venv/lib/a.py"
  = Some (File (Text "a = '%s' % b") false).
Proof.
  set (w := Example.world_of _).
  set (run := fstringify_files _ _ _ _ _ _ _ _ _ _ _ _ w).
  rewrite (fstringify_files_frame
             Example.conv_percent Example.up_nothing
             Example.clock0 Example.pyup_success Example.suggest_pyup
             Example.farewell
             [("/proj/venv/lib", "a.py"); ("/proj/src", "b.py")]
             false true false 88 w (fst run) (snd run)
             "/proj/venv/lib/a.py").
  - vm_compute. reflexivity.
  - symmetry. apply surjective_pairing.
  - vm_compute. intros [H | []]. discriminate H.
Defined.

(** ** The totals *)

Lemma file_results_length conv up files verbose quiet multiline len_limit pyup :
  forall w rs w',
    file_results conv up files verbose quiet multiline len_limit pyup w
      = (Ok rs, w') ->
    length rs = length (processed files).
Proof.
  unfold processed.
  induction files as [|file rest IH]; intros w rs w' Hrun; simpl in *.
  - unfold ret in Hrun. invert_pairs. reflexivity.
  - destruct (blacklisted file); simpl; [eapply IH; eassumption |].
    unfold bind at 1 in Hrun.
    destruct (process_file conv up file verbose quiet multiline len_limit
                pyup w) as [[r|e] w1]; [| discriminate Hrun].
    unfold bind at 1 in Hrun.
    destruct (file_results conv up rest verbose quiet multiline len_limit
                pyup w1) as [[rs'|e] w2] eqn:Hrest; [| discriminate Hrun].
    unfold ret in Hrun. invert_pairs. simpl. f_equal. eapply IH. eassumption.
Qed.

Lemma filter_length_le {A} (f : A -> bool) (l : list A) :
  (length (List.filter f l) <= length l)%nat.
Proof.
  induction l as [|x l IH]; simpl; [lia |]. destruct (f x); simpl; lia.
Qed.

(** X10.  The number that [fstringify_files] returns lies between 0 and
    the number of pairs that are not blacklisted. *)
Theorem fstringify_files_status_bounds
    conv up clock m1 m2 m3 files verbose quiet multiline len_limit pyup w n w' :
  fstringify_files conv up clock m1 m2 m3 files verbose quiet multiline
    len_limit pyup w = (Ok n, w') ->
  0 <= n
  <= Z.of_nat (length (List.filter (fun file => negb (blacklisted file)) files)).
Proof.
  intros Hrun.
  destruct (fstringify_files_ok _ _ _ _ _ _ _ _ _ _ _ _ _ _ _ Hrun)
    as (rs & w1 & Hrs & -> & _).
  apply file_results_length in Hrs. unfold processed in Hrs.
  rewrite length_map in Hrs. rewrite <- Hrs. unfold count_changed.
  pose proof (filter_length_le changes_made rs). lia.
Qed.

(** Of two pairs one is blacklisted and the other is converted. *)
Lemma fstringify_files_status_bounds_witness :
  0 <= 1 <= 1.
Proof.
  set (w := Example.world_of (Example.one_file "/proj/src/b.py" "a = '%s' % b")).
  set (run := fstringify_files Example.conv_percent Example.up_nothing
                Example.clock0 Example.pyup_success Example.suggest_pyup
                Example.farewell
                [("/proj/venv/lib", "a.py"); ("/proj/src", "b.py")]
                false true false 88 false w).
  assert (Hrun : run = (Ok 1, snd run)) by (vm_compute; reflexivity).
  exact (fstringify_files_status_bounds
           Example.conv_percent Example.up_nothing
           Example.clock0 Example.pyup_success Example.suggest_pyup
           Example.farewell
           [("/proj/venv/lib", "a.py"); ("/proj/src", "b.py")]
           false true false 88 false w 1 (snd run) Hrun).
Defined.

(** A result without the changed flag has equal character counts. *)
Lemma unchanged_result_lengths conv up filename multiline len_limit pyup
    w r w' :
  fstringify_file conv up filename multiline len_limit pyup w = (Ok r, w') ->
  changes_made r = false ->
  len_original r = len_new r.
Proof.
  intros Hrun Hr. destruct r as [[[c n] lo] ln].
  unfold changes_made, len_original, len_new in *. simpl in *. subst c.
  run; auto; try discriminate.
Qed.

Lemma file_results_unchanged conv up files verbose quiet multiline len_limit
    pyup :
  forall w rs w',
    file_results conv up files verbose quiet multiline len_limit pyup w
      = (Ok rs, w') ->
    Forall (fun r => changes_made r = false -> len_original r = len_new r) rs.
Proof.
  induction files as [|file rest IH]; intros w rs w' Hrun; simpl in *.
  - unfold ret in Hrun. invert_pairs. constructor.
  - destruct (blacklisted file); [eapply IH; eassumption |].
    unfold bind at 1 in Hrun.
    destruct (process_file conv up file verbose quiet multiline len_limit
                pyup w) as [[r|e] w1] eqn:Hfile; [| discriminate Hrun].
    unfold bind at 1 in Hrun.
    destruct (file_results conv up rest verbose quiet multiline len_limit
                pyup w1) as [[rs'|e] w2] eqn:Hrest; [| discriminate Hrun].
    unfold ret in Hrun. invert_pairs. constructor; [| eapply IH; eassumption].
    unfold process_file, bind at 1 in Hfile.
    destruct (fstringify_file conv up (os_path.join (fst file) (snd file))
                multiline len_limit pyup w) as [[r'|e] w3] eqn:Hone;
      [| discriminate Hfile].
    assert (r' = r).
    { unfold bind, print, ret in Hfile.
      destruct (verbose && negb quiet); simpl in Hfile; invert_pairs;
        reflexivity. }
    subst r'. eapply unchanged_result_lengths. eassumption.
Qed.

(** X11.  The character-count reduction of a run is made up by the
    changed files alone: the difference between the summed original and
    new counts over all processed files equals the sum of the per-file
    differences over the files reported as changed. *)
Theorem fstringify_files_reduction
    conv up files verbose quiet multiline len_limit pyup w rs w' :
  file_results conv up files verbose quiet multiline len_limit pyup w
    = (Ok rs, w') ->
  sum_Z (map len_original rs) - sum_Z (map len_new rs)
  = sum_Z (map (fun r => len_original r - len_new r)
             (List.filter changes_made rs)).
Proof.
  intros Hrun. apply file_results_unchanged in Hrun.
  induction Hrun as [|r rs Hr Hrs IH]; simpl; [reflexivity |].
  destruct (changes_made r) eqn:Hc; simpl.
  - lia.
  - specialize (Hr eq_refl). lia.
Qed.

(** One converted file (12 characters become 10) and one left alone. *)
Lemma fstringify_files_reduction_witness :
  (12 + (5 + 0)) - (10 + (5 + 0)) = (12 - 10) + 0.
Proof.
  set (w := Example.world_of
              (<["/p/a.py" := File (Text "a = '%s' % b") false]>
                 (Example.one_file "/p/b.py" "x = 1"))).
  exact (fstringify_files_reduction
           Example.conv_percent Example.up_nothing
           [("/p", "a.py"); ("/p", "b.py")] false true false 88 false w
           [(true, 1, 12, 10); (false, 0, 5, 5)]
           (snd (file_results Example.conv_percent Example.up_nothing
                   [("/p", "a.py"); ("/p", "b.py")] false true false 88 false w))
           ltac:(vm_compute; reflexivity)).
Defined.

(** ** Runs without work *)

Lemma files_loop_all_blacklisted conv up files verbose quiet multiline
    len_limit pyup t w :
  forallb blacklisted files = true ->
  files_loop conv up files verbose quiet multiline len_limit pyup t w
    = (Ok t, w).
Proof.
  induction files as [|file rest IH]; simpl; [reflexivity |].
  rewrite andb_true_iff. intros [-> Hrest]. apply IH. exact Hrest.
Qed.

(** X12.  When no pair is left to process (the sequence is empty, or
    every pair is blacklisted), [fstringify_files] returns 0, opens and
    changes no file, and prints, unless [quiet], the short report for
    zero modified files. *)
Theorem fstringify_files_nothing_to_do
    conv up clock m1 m2 m3 files verbose quiet multiline len_limit pyup w :
  forallb blacklisted files = true ->
  let run := fstringify_files conv up clock m1 m2 m3 files verbose quiet
               multiline len_limit pyup w in
  fst run = Ok 0
  /\ fs (snd run) = fs w
  /\ trace (snd run) = trace w
  /\ stdout (snd run)
     = (stdout w
        ++ (if quiet then []
            else [MsgRunFinished;
                  MsgExecutionTime (clock (S (ticks w)) - clock (ticks w));
                  MsgFilesModified 0;
                  MsgRule;
                  MsgText (if pyup then m1 else m2);
                  MsgText m3;
                  MsgRule]))%list.
Proof.
  intros Hall run.
  destruct run as [r w'] eqn:Hrun. subst run. simpl.
  unfold fstringify_files, time_time in Hrun. unfold bind at 1 in Hrun.
  unfold bind at 1 in Hrun.
  rewrite files_loop_all_blacklisted in Hrun by exact Hall.
  unfold bind at 1 in Hrun. unfold bind at 1 in Hrun. simpl in Hrun.
  destruct quiet; simpl in Hrun.
  - unfold ret in Hrun. invert_pairs. simpl. rewrite ?app_nil_r.
    repeat split; reflexivity.
  - unfold print_report, bind, print, ret in Hrun.
    destruct pyup; simpl in Hrun; invert_pairs; simpl;
      rewrite <- ?app_assoc; repeat split; reflexivity.
Qed.

(** The empty sequence of pairs. *)
Lemma fstringify_files_nothing_to_do_witness :
  fst (fstringify_files Example.conv_percent Example.up_nothing
         Example.clock0 Example.pyup_success Example.suggest_pyup
         Example.farewell [] false false false 88 false
         (Example.world_of ∅))
    = Ok 0.
Proof.
  apply (fstringify_files_nothing_to_do
           Example.conv_percent Example.up_nothing
           Example.clock0 Example.pyup_success Example.suggest_pyup
           Example.farewell [] false false false 88 false
           (Example.world_of ∅)).
  reflexivity.
Defined.

(** ** Collecting the input paths *)

(** The pairs that one existing path contributes. *)
Lemma collect_files_app find abspath paths :
  forall files w,
    (forall p, In p paths -> fs w !! abspath p <> None) ->
    collect_files find abspath paths files w
    = (Ok (files
           ++ flat_map
                (fun p =>
                   match fs w !! abspath p with
                   | Some Dir => find (fs w) (abspath p)
                   | _ => [(os_path.dirname (abspath p),
                            os_path.basename (abspath p))]
                   end) paths)%list,
       w).
Proof.
  induction paths as [|p rest IH]; intros files w Hall; simpl.
  - unfold ret. rewrite app_nil_r. reflexivity.
  - assert (Hp : fs w !! abspath p <> None) by (apply Hall; left; reflexivity).
    unfold bind at 1. unfold exists_ at 1.
    destruct (fs w !! abspath p) as [nd|] eqn:Hnode; [| contradiction].
    simpl. unfold bind, ret, isdir. rewrite Hnode.
    destruct nd as [|d ro];
      rewrite IH by (intros q Hq; apply Hall; right; exact Hq);
      rewrite <- app_assoc; reflexivity.
Qed.

(** X13.  When every input path exists, [fstringify] hands
    [fstringify_files] the pairs of the paths in the order given: for a
    directory what the discovery finds below it, for any other path the
    one pair of its directory name and base name; collecting them changes
    nothing. *)
Theorem collect_files_existing find abspath paths w :
  (forall p, In p paths -> fs w !! abspath p <> None) ->
  collect_files find abspath paths [] w
  = (Ok (flat_map
           (fun p =>
              match fs w !! abspath p with
              | Some Dir => find (fs w) (abspath p)
              | _ => [(os_path.dirname (abspath p),
                       os_path.basename (abspath p))]
              end) paths),
     w).
Proof.
  intros Hall. rewrite collect_files_app by exact Hall. reflexivity.
Qed.

(** One file given by its absolute path. *)
Lemma collect_files_existing_witness :
  fst (collect_files Example.no_py_files Example.abspath_id ["/p/a.py"] []
         (Example.world_of (Example.one_file "/p/a.py" "x = 1")))
    = Ok [("/p", "a.py")].
Proof.
  rewrite (collect_files_existing Example.no_py_files Example.abspath_id
             ["/p/a.py"]
             (Example.world_of (Example.one_file "/p/a.py" "x = 1"))).
  - vm_compute. reflexivity.
  - intros p [<- | []]. vm_compute. discriminate.
Defined.

Lemma collect_files_missing find abspath pre p post :
  forall files w,
    (forall q, In q pre -> fs w !! abspath q <> None) ->
    fs w !! abspath p = None ->
    collect_files find abspath (pre ++ p :: post)%list files w
    = (Raise (SystemExit 1), add_stdout (MsgNotFound p) w).
Proof.
  induction pre as [|q pre IH]; intros files w Hpre Hp; simpl.
  - unfold bind at 1. unfold exists_ at 1. rewrite Hp. reflexivity.
  - assert (Hq : fs w !! abspath q <> None) by (apply Hpre; left; reflexivity).
    unfold bind at 1. unfold exists_ at 1.
    destruct (fs w !! abspath q) as [nd|] eqn:Hnode; [| contradiction].
    simpl. unfold bind, ret, isdir. rewrite Hnode.
    destruct nd as [|d ro];
      apply IH; try exact Hp; intros r Hr; apply Hpre; right; exact Hr.
Qed.

(** X14.  The input paths are all checked before any file is processed:
    if one of them does not exist, [fstringify] prints the not-found
    message for the first such path and exits with status 1, and no file
    has been opened or changed, not even those of the paths before it. *)
Theorem fstringify_missing_path_anywhere
    conv up find abspath clock m1 m2 m3 pre p post verbose quiet multiline
    len_limit pyup fail w :
  (forall q, In q pre -> fs w !! abspath q <> None) ->
  fs w !! abspath p = None ->
  let run := fstringify conv up find abspath clock m1 m2 m3
               (pre ++ p :: post)%list verbose quiet multiline len_limit pyup
               fail w in
  fst run = Raise (SystemExit 1)
  /\ fs (snd run) = fs w
  /\ trace (snd run) = trace w
  /\ stdout (snd run) = (stdout w ++ [MsgNotFound p])%list.
Proof.
  intros Hpre Hp run. subst run. unfold fstringify, bind.
  rewrite collect_files_missing by assumption.
  repeat split; reflexivity.
Qed.

(** A file to convert, followed by a path that does not exist. *)
Lemma fstringify_missing_path_anywhere_witness :
  fst (fstringify Example.conv_percent Example.up_nothing Example.no_py_files
         Example.abspath_id Example.clock0 Example.pyup_success
         Example.suggest_pyup Example.farewell
         (["/p/a.py"] ++ "/p/none.py" :: [])%list false false false 88 false
         false
         (Example.world_of (Example.one_file "/p/a.py" "a = '%s' % b")))
    = Raise (SystemExit 1).
Proof.
  apply (fstringify_missing_path_anywhere
           Example.conv_percent Example.up_nothing Example.no_py_files
           Example.abspath_id Example.clock0 Example.pyup_success
           Example.suggest_pyup Example.farewell
           ["/p/a.py"] "/p/none.py" [] false false false 88 false false
           (Example.world_of (Example.one_file "/p/a.py" "a = '%s' % b"))).
  - intros q [<- | []]. vm_compute. discriminate.
  - vm_compute. reflexivity.
Defined.

(** ** Directory name, base name and join *)

Lemma prefix_cons (a b : ascii) (s1 s2 : string) :
  String.prefix (String a s1) (String b s2)
  = if ascii_dec a b then String.prefix s1 s2 else false.
Proof.
  change (String.prefix (String a s1) (String b s2))
    with (match ascii_dec a b with
          | left _ => String.prefix s1 s2
          | right _ => false
          end).
  destruct (ascii_dec a b); reflexivity.
Qed.

Lemma prefix_nil (s : string) : String.prefix "" s = true.
Proof. destruct s; reflexivity. Qed.

Lemma prefix_slash (c : ascii) (s : string) :
  String.prefix "/" (String c s) = Ascii.eqb c "/".
Proof.
  rewrite prefix_cons, prefix_nil.
  destruct (ascii_dec "/" c) as [<-|Hne].
  - reflexivity.
  - symmetry. apply Ascii.eqb_neq. congruence.
Qed.

Lemma has_slash_cons (c : ascii) (s : string) :
  str_contains "/" (String c s) = Ascii.eqb c "/" || str_contains "/" s.
Proof. rewrite str_contains_cons, prefix_slash. reflexivity. Qed.

Lemma str_contains_prefix (b s : string) :
  str_contains b s = false -> String.prefix b s = false.
Proof.
  destruct s; [rewrite str_contains_nil | rewrite str_contains_cons];
    rewrite orb_false_iff; tauto.
Qed.

Lemma str_contains_tail (b : string) (c : ascii) (s : string) :
  str_contains b (String c s) = false -> str_contains b s = false.
Proof. rewrite str_contains_cons, orb_false_iff. tauto. Qed.

Lemma str_contains_app_l (b h t : string) :
  str_contains b (h ++ t) = false -> str_contains b h = false.
Proof.
  intros H. destruct (str_contains b h) eqn:Hh; [| reflexivity].
  apply str_contains_iff in Hh. destruct Hh as (pre & post & ->).
  assert (Hc : str_contains b ((pre ++ b ++ post) ++ t) = true).
  { apply str_contains_iff. exists pre, (post ++ t).
    rewrite !append_assoc. reflexivity. }
  congruence.
Qed.

(** The three facts about the split after the last slash. *)
Lemma split_last_slash_spec (s : string) :
  fst (split_last_slash s) ++ snd (split_last_slash s) = s
  /\ str_contains "/" (snd (split_last_slash s)) = false
  /\ (fst (split_last_slash s) = ""
      \/ ends_with_slash (fst (split_last_slash s)) = true).
Proof.
  induction s as [|c s (IHapp & IHtail & IHhead)].
  - simpl. repeat split; auto.
  - cbn [split_last_slash].
    destruct (split_last_slash s) as [h t]. simpl fst in *. simpl snd in *.
    destruct (str_contains "/" s) eqn:Hs.
    + simpl fst. simpl snd. rewrite append_cons, IHapp.
      split; [reflexivity |]. split; [exact IHtail |]. right.
      destruct IHhead as [-> | Hh].
      * rewrite append_nil_l in IHapp. congruence.
      * destruct h; [discriminate Hh | exact Hh].
    + destruct (Ascii.eqb c "/") eqn:Hc; simpl fst; simpl snd.
      * split; [reflexivity |]. split; [exact Hs |]. right.
        simpl. exact Hc.
      * split; [reflexivity |]. split; [| left; reflexivity].
        rewrite has_slash_cons, Hc, Hs. reflexivity.
Qed.

Lemma rstrip_slash_cons (c : ascii) (s : string) :
  rstrip_slash (String c s)
  = if all_slashes (String c s) then "" else String c (rstrip_slash s).
Proof. reflexivity. Qed.

Lemma all_slashes_cons (c : ascii) (s : string) :
  all_slashes (String c s) = Ascii.eqb c "/" && all_slashes s.
Proof. reflexivity. Qed.

Lemma rstrip_slash_single (h : string) :
  ends_with_slash h = true ->
  all_slashes h = false ->
  str_contains "//" h = false ->
  rstrip_slash h ++ "/" = h
  /\ rstrip_slash h <> ""
  /\ ends_with_slash (rstrip_slash h) = false.
Proof.
  induction h as [|c h IH]; [discriminate |].
  intros Hend Hall Hdouble.
  destruct h as [|c' h'].
  - simpl in Hend. rewrite all_slashes_cons, Hend in Hall. discriminate Hall.
  - assert (Hend' : ends_with_slash (String c' h') = true) by exact Hend.
    pose proof (str_contains_tail _ _ _ Hdouble) as Hdouble'.
    rewrite rstrip_slash_cons, Hall.
    rewrite all_slashes_cons in Hall.
    destruct (all_slashes (String c' h')) eqn:Hall'.
    + rewrite andb_true_r in Hall.
      rewrite all_slashes_cons, andb_true_iff in Hall'.
      destruct Hall' as [Hc' Hh']. apply Ascii.eqb_eq in Hc'. subst c'.
      destruct h' as [|c'' h''].
      * rewrite rstrip_slash_cons. simpl all_slashes. rewrite append_cons.
        rewrite append_nil_l. split; [reflexivity |].
        split; [discriminate |]. simpl. exact Hall.
      * rewrite all_slashes_cons, andb_true_iff in Hh'.
        destruct Hh' as [Hc'' _]. apply Ascii.eqb_eq in Hc''. subst c''.
        apply str_contains_prefix in Hdouble'. simpl in Hdouble'.
        destruct h''; discriminate Hdouble'.
    + destruct (IH Hend' eq_refl Hdouble') as (Happ & Hne & Hlast).
      rewrite append_cons, Happ. split; [reflexivity |].
      split; [discriminate |].
      destruct (rstrip_slash (String c' h')) eqn:Hr; [contradiction |].
      exact Hlast.
Qed.

Lemma join_split (p : string) :
  str_contains "//" p = false ->
  os_path.join (os_path.dirname p) (os_path.basename p) = p.
Proof.
  intros Hdouble.
  destruct (split_last_slash_spec p) as (Happ & Htail & Hhead).
  unfold os_path.dirname, os_path.basename, os_path.split, os_path.join.
  destruct (split_last_slash p) as [h t]. simpl fst in *. simpl snd in *.
  apply str_contains_prefix in Htail. 
  destruct (String.eqb h "") eqn:Hempty.
  - apply String.eqb_eq in Hempty. subst h. simpl. rewrite Htail. exact Happ.
  - simpl negb. rewrite andb_true_l.
    destruct Hhead as [-> | Hend]; [discriminate Hempty |].
    destruct (all_slashes h) eqn:Hall; simpl fst.
    + rewrite Htail, Hempty, Hend. exact Happ.
    + assert (Hh : str_contains "//" h = false).
      { apply str_contains_app_l with (t := t). rewrite Happ. exact Hdouble. }
      destruct (rstrip_slash_single h Hend Hall Hh) as (Hr & Hne & Hlast).
      rewrite Htail, Hlast, orb_false_r.
      destruct (String.eqb (rstrip_slash h) "") eqn:Hre.
      * apply String.eqb_eq in Hre. contradiction.
      * rewrite <- append_assoc, Hr. exact Happ.
Qed.

(** X15.  For a path without a doubled slash, joining its directory name
    and its base name gives the path back: the pair that [fstringify]
    builds for a file argument leads [fstringify_files] to that very
    file. *)
Theorem join_dirname_basename (p : string) :
  str_contains "//" p = false ->
  os_path.join (os_path.dirname p) (os_path.basename p) = p.
Proof.
  apply join_split.
Qed.

(** An absolute path of three components. *)
Lemma join_dirname_basename_witness :
  os_path.join (os_path.dirname "/proj/src/a.py")
    (os_path.basename "/proj/src/a.py")
  = "/proj/src/a.py".
Proof.
  apply (join_dirname_basename "/proj/src/a.py"). reflexivity.
Defined.

(** ** One file from the command line to the disk *)

(** X16.  For a single argument that is an existing file (not a
    directory) whose absolute path has no doubled slash, a run of
    [fstringify] that returns has opened exactly that absolute path, or
    nothing at all when the directory of the path is blacklisted. *)
Theorem fstringify_single_file
    conv up find abspath clock m1 m2 m3 p verbose quiet multiline len_limit
    pyup fail w data ro v w' :
  fs w !! abspath p = Some (File data ro) ->
  str_contains "//" (abspath p) = false ->
  fstringify conv up find abspath clock m1 m2 m3 [p] verbose quiet multiline
    len_limit pyup fail w = (Ok v, w') ->
  reads (trace w')
  = (reads (trace w)
     ++ (if blacklisted (os_path.dirname (abspath p),
                         os_path.basename (abspath p))
         then []
         else [abspath p]))%list.
Proof.
  intros Hfile Hdouble Hrun. unfold fstringify in Hrun.
  unfold bind at 1 in Hrun.
  rewrite collect_files_app in Hrun
    by (intros q [<- | []]; rewrite Hfile; discriminate).
  simpl in Hrun. rewrite Hfile in Hrun. simpl in Hrun.
  unfold bind at 1 in Hrun.
  destruct (fstringify_files conv up clock m1 m2 m3
              [(os_path.dirname (abspath p), os_path.basename (abspath p))]
              verbose quiet multiline len_limit pyup w)
    as [[status|e] w1] eqn:Hfiles; [| discriminate Hrun].
  apply fstringify_files_reads in Hfiles.
  assert (w1 = w') by (destruct fail; unfold ret in Hrun; invert_pairs; auto).
  subst w1. rewrite Hfiles. unfold processed. simpl.
  destruct (blacklisted (os_path.dirname (abspath p),
                         os_path.basename (abspath p))); simpl;
    [reflexivity |].
  rewrite join_split by exact Hdouble. reflexivity.
Qed.

(** One file, given by its absolute path. *)
Lemma fstringify_single_file_witness :
  reads (trace (snd (fstringify Example.conv_percent Example.up_nothing
                       Example.no_py_files Example.abspath_id Example.clock0
                       Example.pyup_success Example.suggest_pyup
                       Example.farewell ["/p/a.py"] false true false 88 false
                       false
                       (Example.world_of
                          (Example.one_file "/p/a.py" "a = '%s' % b")))))
  = ["/p/a.py"].
Proof.
  set (w := Example.world_of (Example.one_file "/p/a.py" "a = '%s' % b")).
  set (run := fstringify _ _ _ _ _ _ _ _ _ _ _ _ _ _ _ w).
  assert (Hrun : run = (Ok 0, snd run)) by (vm_compute; reflexivity).
  rewrite (fstringify_single_file
             Example.conv_percent Example.up_nothing
             Example.no_py_files Example.abspath_id Example.clock0
             Example.pyup_success Example.suggest_pyup Example.farewell
             "/p/a.py" false true false 88 false false w
             (Text "a = '%s' % b") false 0 (snd run)).
  - reflexivity.
  - vm_compute. reflexivity.
  - reflexivity.
  - exact Hrun.
Defined.

(** ** What [quiet] silences *)

Lemma fstringify_file_stdout conv up filename multiline len_limit w r w' :
  fstringify_file conv up filename multiline len_limit false w = (r, w') ->
  exists added,
    stdout w' = (stdout w ++ added)%list
    /\ forallb is_skip_message added = true.
Proof.
  intros Hrun.
  run; simpl;
    first [ exists []; rewrite app_nil_r; split; reflexivity
          | eexists [_]; split; reflexivity ].
Qed.

Lemma files_loop_quiet conv up files verbose multiline len_limit :
  forall t w r w',
    files_loop conv up files verbose true multiline len_limit false t w
      = (r, w') ->
    exists added,
      stdout w' = (stdout w ++ added)%list
      /\ forallb is_skip_message added = true.
Proof.
  induction files as [|file rest IH]; intros t w r w' Hrun; simpl in Hrun.
  - unfold ret in Hrun. invert_pairs. exists []. rewrite app_nil_r.
    split; reflexivity.
  - destruct (blacklisted file); [eapply IH; eassumption |].
    unfold bind at 1 in Hrun. unfold process_file in Hrun.
    rewrite andb_false_r in Hrun. unfold bind at 1 in Hrun.
    destruct (fstringify_file conv up (os_path.join (fst file) (snd file))
                multiline len_limit false w) as [[res|e] w1] eqn:Hfile;
      apply fstringify_file_stdout in Hfile;
      destruct Hfile as (a1 & Hout1 & Hskip1).
    + unfold bind, ret in Hrun. simpl in Hrun.
      apply IH in Hrun. destruct Hrun as (a2 & Hout2 & Hskip2).
      exists (a1 ++ a2)%list. rewrite Hout2, Hout1, <- app_assoc.
      split; [reflexivity |]. rewrite forallb_app, Hskip1, Hskip2. reflexivity.
    + invert_pairs. exists a1. auto.
Qed.

(** X17.  With [quiet] on and [pyup] off, the only lines a run of
    [fstringify_files] adds to standard output are skip messages of the
    [except] block: the report and the per-file lines are silenced, the
    skip messages are not. *)
Theorem fstringify_files_quiet
    conv up clock m1 m2 m3 files verbose multiline len_limit w r w' :
  fstringify_files conv up clock m1 m2 m3 files verbose true multiline
    len_limit false w = (r, w') ->
  exists added,
    stdout w' = (stdout w ++ added)%list
    /\ forallb is_skip_message added = true.
Proof.
  unfold fstringify_files, time_time. unfold bind at 1. intros Hrun.
  unfold bind at 1 in Hrun.
  destruct (files_loop conv up files verbose true multiline len_limit false
              totals0 (tick w)) as [[t|e] w1] eqn:Hloop;
    apply files_loop_quiet in Hloop; simpl in Hloop.
  - unfold bind, ret in Hrun. simpl in Hrun. invert_pairs. exact Hloop.
  - invert_pairs. exact Hloop.
Qed.

(** A file that fails to parse: its skip message is all that is printed. *)
Lemma fstringify_files_quiet_witness :
  stdout (snd (fstringify_files Example.conv_syntax_error Example.up_nothing
                 Example.clock0 Example.pyup_success Example.suggest_pyup
                 Example.farewell [("/p", "a.py")] true true false 88 false
                 (Example.world_of (Example.one_file "/p/a.py" "print u'hi'"))))
  = [MsgSkipping "/p/a.py" (RaisedException "SyntaxError")].
Proof.
  set (w := Example.world_of (Example.one_file "/p/a.py" "print u'hi'")).
  set (run := fstringify_files _ _ _ _ _ _ _ _ _ _ _ _ w).
  destruct (fstringify_files_quiet
              Example.conv_syntax_error Example.up_nothing
              Example.clock0 Example.pyup_success Example.suggest_pyup
              Example.farewell [("/p", "a.py")] true false 88 w
              (fst run) (snd run) (surjective_pairing run))
    as (added & Hout & _).
  vm_compute. reflexivity.
Defined.

(** ** The counts and the disk *)

(** X18.  With [pyup] off, the original count of a returned result is the
    length of the text as it was read, that is of the text on disk with
    its line ends translated; when the result reports a change, the new
    count is the length of the text that is on disk at that path after
    the call; when it reports none, the file system is as it was and the
    new count equals the original count. *)
Theorem fstringify_file_counts_match_disk
    conv up filename multiline len_limit w r w' :
  fstringify_file conv up filename multiline len_limit false w = (Ok r, w') ->
  exists before ro,
    fs w !! filename = Some (File (Text before) ro)
    /\ len_original r = len (universal_newlines before)
    /\ (changes_made r = true ->
        exists after,
          fs w' !! filename = Some (File (Text after) false)
          /\ len_new r = len after)
    /\ (changes_made r = false ->
        fs w' = fs w /\ len_new r = len_original r).
Proof.
  intros Hrun. unfold fstringify_file, bind in Hrun.
  destruct (try_statement conv filename multiline len_limit w)
    as [[result|e] w1] eqn:Htry; simpl in Hrun; [| discriminate Hrun].
  unfold ret in Hrun. invert_pairs.
  destruct (try_statement_ok _ _ _ _ _ _ _ Htry)
    as (contents & Hread & Hcases).
  destruct (open_read_ok _ _ _ Hread) as (disk & ro & Hfile & ->).
  exists disk, ro. split; [exact Hfile |].
  destruct Hcases as [(nc & k & _ & _ & -> & Hfs & _) | (-> & Hfs & _)].
  - split; [reflexivity |]. split; [| discriminate].
    intros _. exists nc. rewrite Hfs, lookup_insert_eq. auto.
  - split; [reflexivity |]. split; [discriminate |]. auto.
Qed.

(** One converted expression: 12 characters before, 10 on disk after. *)
Lemma fstringify_file_counts_match_disk_witness :
  exists after,
    fs (snd (fstringify_file Example.conv_percent Example.up_nothing
               "/p/a.py" false 88 false
               (Example.world_of (Example.one_file "/p/a.py" "a = '%s' % b"))))
      !! "/p/a.py" = Some (File (Text after) false)
    /\ 10 = len after.
Proof.
  set (w := Example.world_of (Example.one_file "/p/a.py" "a = '%s' % b")).
  set (run := fstringify_file Example.conv_percent Example.up_nothing
                "/p/a.py" false 88 false w).
  assert (Hrun : run = (Ok (true, 1, 12, 10), snd run))
    by (vm_compute; reflexivity).
  destruct (fstringify_file_counts_match_disk
              Example.conv_percent Example.up_nothing "/p/a.py" false 88 w
              (true, 1, 12, 10) (snd run) Hrun)
    as (before & ro & _ & _ & Hchanged & _).
  exact (Hchanged eq_refl).
Defined.
